(** * Lucidia reasoning engine: trinary operators and contradiction resolver

    A shallow embedding of
      - REASONING_ENGINE/trinary_operators.py
      - REASONING_ENGINE/contradiction_resolver.py
    followed by the properties proved about it.

    Conventions of the embedding.
      - Python [int] is [Z]; the trinary domain {-1, 0, +1} is not enforced by
        the source, so it is not enforced here either: where a property needs
        it, it is a hypothesis.
      - The entropy costs are binary64 values ([float], the primitive floats
        of the kernel) and are added with the binary64 addition, in the
        order the code adds them: their sums depend on that order.
      - Every other Python [float] is [Q], exact rational arithmetic: the
        literals of the source (0.0, 0.05, 0.1, 0.15, 0.2, 1.0) are the
        rationals they denote and [+], [-], [*], [/] are exact, so the
        theorems on them are about the formulas the code evaluates.
        Equality of such numbers is [Qeq] ([==]).
      - A Python [dict] is an association list in insertion order, which is
        the order [items()] and [values()] iterate in.
      - Objects are modelled by value and methods pass the receiver
        explicitly: [m self args] returns the receiver after the call
        together with the result.  A Python exception is the [Raised]
        outcome. *)

From Stdlib Require Import ZArith QArith Qminmax List String Bool.
From Stdlib Require Import Lia Lqa Permutation Sorted.
From Stdlib Require Import PrimFloat.
Import ListNotations.
Local Open Scope Z_scope.

(** ** Outcomes of calls that may raise *)

Inductive exn : Type :=
| IndexError.

Inductive outcome (A : Type) : Type :=
| Returned (a : A)
| Raised (e : exn).

Arguments Returned {A} a.
Arguments Raised {A} e.

Definition bind {A B : Type} (m : outcome A) (k : A -> outcome B) : outcome B :=
  match m with
  | Returned a => k a
  | Raised e => Raised e
  end.

Notation "x <- m ;; k" := (bind m (fun x => k))
  (at level 61, m at next level, right associativity).

(** [l[i]] for a non-negative index [i]. *)
Definition list_index {A : Type} (l : list A) (i : nat) : outcome A :=
  match nth_error l i with
  | Some a => Returned a
  | None => Raised IndexError
  end.

(** ** Binary64 numbers *)

Module B64.

(** The float literals of the resolution strategies. *)
Definition zero : float := 0%float.

(** 0.3, the binary64 value nearest to three tenths. *)
Definition three_tenths : float := 0x1.3333333333333p-2%float.

Definition half : float := 0.5%float.

Definition one : float := 1%float.

(** [a + b] on floats. *)
Definition add (a b : float) : float := PrimFloat.add a b.

(** The numbers added one after the other, from 0.0, left to right. *)
Definition sum (xs : list float) : float := fold_left add xs zero.

End B64.

(** ** Python dictionaries, in insertion order *)

Module PyDict.

Definition dict (V : Type) : Type := list (string * V).

Definition empty {V : Type} : dict V := [].

(** [d[k] = v]: an existing key keeps its position, a new key goes last. *)
Fixpoint set {V : Type} (k : string) (v : V) (d : dict V) : dict V :=
  match d with
  | [] => [(k, v)]
  | (k', v') :: rest =>
      if String.eqb k' k then (k, v) :: rest else (k', v') :: set k v rest
  end.

Fixpoint get {V : Type} (k : string) (d : dict V) : option V :=
  match d with
  | [] => None
  | (k', v') :: rest => if String.eqb k' k then Some v' else get k rest
  end.

Definition items {V : Type} (d : dict V) : list (string * V) := d.

Definition keys {V : Type} (d : dict V) : list string := map fst d.

Definition values {V : Type} (d : dict V) : list V := map snd d.

End PyDict.

(** ** trinary_operators.py *)

Module TrinaryOperators.

(** *** class TrinaryLogic *)

Definition FALSE : Z := -1.
Definition UNKNOWN : Z := 0.
Definition TRUE : Z := 1.

Definition TAND (a b : Z) : Z := Z.min a b.

Definition TOR (a b : Z) : Z := Z.max a b.

Definition TNOT (a : Z) : Z := - a.

Definition TIMPLIES (a b : Z) : Z :=
  if a =? FALSE then TRUE
  else if a =? UNKNOWN then (if negb (b =? TRUE) then UNKNOWN else TRUE)
  else b.

Definition uncertainty_measure (value : Z) : Q :=
  if value =? UNKNOWN then 1%Q else 0%Q.

(** *** class LucidiaTrinaryCortex *)

(** One entry of [reasoning_history]. *)
Record ReasoningStep : Type := mkStep {
  step_premises : list Z;
  step_operations : list string;
  step_result : Z;
  step_uncertainty : Q
}.

Record LucidiaTrinaryCortex : Type := mkCortex {
  reasoning_history : list ReasoningStep;
  contradiction_count : Z
}.

Definition new_cortex : LucidiaTrinaryCortex :=
  {| reasoning_history := []; contradiction_count := 0 |}.

(** The [if op == "AND" ... elif ... elif ...] of the loop body: a tag that is
    none of the three falls through and leaves [current_state] as it is. *)
Definition apply_operation (op : string) (current_state next_premise : Z) : Z :=
  if String.eqb op "AND" then TAND current_state next_premise
  else if String.eqb op "OR" then TOR current_state next_premise
  else if String.eqb op "IMPLIES" then TIMPLIES current_state next_premise
  else current_state.

(** [for i, op in enumerate(operations)], entered at index [i] with the
    operations that are left. *)
Fixpoint chain_loop (premises : list Z) (i : nat) (operations : list string)
    (current_state : Z) (uncertainty_accumulation : Q) : outcome (Z * Q) :=
  match operations with
  | [] => Returned (current_state, uncertainty_accumulation)
  | op :: rest =>
      if (i + 1 <? List.length premises)%nat then
        next_premise <- list_index premises (i + 1) ;;
        let current_state := apply_operation op current_state next_premise in
        chain_loop premises (S i) rest current_state
          (uncertainty_accumulation + uncertainty_measure current_state)%Q
      else
        chain_loop premises (S i) rest current_state uncertainty_accumulation
  end.

Definition reason_chain (self : LucidiaTrinaryCortex)
    (premises : list Z) (operations : list string)
    : outcome (LucidiaTrinaryCortex * (Z * Q)) :=
  current_state <- list_index premises 0 ;;
  r <- chain_loop premises 0 operations current_state 0%Q ;;
  let entry := {| step_premises := premises;
                  step_operations := operations;
                  step_result := fst r;
                  step_uncertainty := snd r |} in
  Returned ({| reasoning_history := reasoning_history self ++ [entry];
               contradiction_count := contradiction_count self |},
            r).

Definition detect_contradiction (self : LucidiaTrinaryCortex)
    (statement_a statement_b : Z) : LucidiaTrinaryCortex * bool :=
  if (statement_a =? - statement_b)
     && negb (existsb (Z.eqb 0) [statement_a; statement_b])
  then ({| reasoning_history := reasoning_history self;
           contradiction_count := contradiction_count self + 1 |}, true)
  else (self, false).

(** [sum(step['uncertainty'] for step in history)]: from 0, left to right. *)
Definition total_uncertainty (history : list ReasoningStep) : Q :=
  fold_left (fun acc step => (acc + step_uncertainty step)%Q) history 0%Q.

Definition consciousness_phi_contribution (self : LucidiaTrinaryCortex) : Q :=
  match reasoning_history self with
  | [] => 0%Q
  | _ :: _ =>
      let reasoning_depth := Z.of_nat (List.length (reasoning_history self)) in
      (total_uncertainty (reasoning_history self)
       / inject_Z (reasoning_depth + 1))%Q
  end.

(** *** def substrate_reasoning_cost

    The dictionary literal, in the order its keys are written; 5e-20, 1e-19
    and 3.6e-14 are the rationals the literals denote. *)
Definition substrate_reasoning_cost (reasoning_complexity : Q) : PyDict.dict Q :=
  [ ("chemical"%string, (reasoning_complexity * (5 # 100000000000000000000))%Q);
    ("quantum"%string, (reasoning_complexity * (1 # 10000000000000000000))%Q);
    ("electronic"%string, (reasoning_complexity * (36 # 1000000000000000))%Q) ].

End TrinaryOperators.

(** ** contradiction_resolver.py *)

Module ContradictionResolver.

Import TrinaryOperators.

Inductive ContradictionSeverity : Type :=
| SOFT
| MEDIUM
| HARD
| CRITICAL.

(** [severity.value], the integer of the Enum member. *)
Definition severity_value (s : ContradictionSeverity) : Z :=
  match s with
  | SOFT => 1
  | MEDIUM => 2
  | HARD => 3
  | CRITICAL => 4
  end.

Record Contradiction : Type := mkContradiction {
  belief_a : string;
  belief_b : string;
  value_a : Z;
  value_b : Z;
  severity : ContradictionSeverity;
  timestamp : Q;
  context : string;
  resolution_attempts : Z
}.

(** *** class ContradictionResolver *)

Definition detect_contradiction (belief_name_a : string) (value_a : Z)
    (belief_name_b : string) (value_b : Z) : option Contradiction :=
  if value_a =? value_b then None
  else
    let severity :=
      if (value_a =? 0) || (value_b =? 0) then
        (if (value_a =? 0) && (value_b =? 0) then SOFT else MEDIUM)
      else if value_a =? - value_b then HARD
      else MEDIUM in
    Some {| belief_a := belief_name_a;
            belief_b := belief_name_b;
            value_a := value_a;
            value_b := value_b;
            severity := severity;
            timestamp := 0%Q;
            context := EmptyString;
            resolution_attempts := 0 |}.

Definition _resolve_soft (contradiction : Contradiction) : Z * float :=
  (0, B64.zero).

Definition _resolve_medium (contradiction : Contradiction) : Z * float :=
  let certain_value :=
    if negb (value_a contradiction =? 0) then value_a contradiction
    else value_b contradiction in
  (certain_value, B64.three_tenths).

Definition _resolve_hard (contradiction : Contradiction) : Z * float :=
  (0, B64.half).

Definition _resolve_critical (contradiction : Contradiction) : Z * float :=
  (0, B64.one).

(** The dictionary [self.resolution_strategies]; it holds all four keys. *)
Definition resolution_strategies (s : ContradictionSeverity)
    : Contradiction -> Z * float :=
  match s with
  | SOFT => _resolve_soft
  | MEDIUM => _resolve_medium
  | HARD => _resolve_hard
  | CRITICAL => _resolve_critical
  end.

Definition entropy_cost (contradictions : list Contradiction) : float :=
  fold_left
    (fun total_cost contradiction =>
       let strategy := resolution_strategies (severity contradiction) in
       B64.add total_cost (snd (strategy contradiction)))
    contradictions B64.zero.

(** *** class LucidiaContradictionCortex(ContradictionResolver) *)

Record LucidiaContradictionCortex : Type := mkEngine {
  cortex : LucidiaTrinaryCortex;
  active_contradictions : list Contradiction;
  resolved_contradictions : list Contradiction;
  belief_network : PyDict.dict Z;
  confidence_network : PyDict.dict Q
}.

Definition new_engine (trinary_cortex : LucidiaTrinaryCortex)
    : LucidiaContradictionCortex :=
  {| cortex := trinary_cortex;
     active_contradictions := [];
     resolved_contradictions := [];
     belief_network := PyDict.empty;
     confidence_network := PyDict.empty |}.

(** The loop of [update_belief_network] over [belief_network.items()],
    appending each detected contradiction to [new_contradictions]. *)
Definition detect_against (belief_name : string) (value : Z)
    (network : PyDict.dict Z) : list Contradiction :=
  fold_left
    (fun new_contradictions entry =>
       match detect_contradiction (fst entry) (snd entry) belief_name value with
       | Some contradiction => new_contradictions ++ [contradiction]
       | None => new_contradictions
       end)
    (PyDict.items network) [].

Definition update_belief_network (self : LucidiaContradictionCortex)
    (belief_name : string) (value : Z) (confidence : Q)
    : LucidiaContradictionCortex * Z :=
  let new_contradictions := detect_against belief_name value (belief_network self) in
  ({| cortex := cortex self;
      active_contradictions := active_contradictions self ++ new_contradictions;
      resolved_contradictions := resolved_contradictions self;
      belief_network := PyDict.set belief_name value (belief_network self);
      confidence_network := PyDict.set belief_name confidence (confidence_network self) |},
   Z.of_nat (List.length new_contradictions)).

(** [sorted(xs, key=lambda c: c.severity.value, reverse=True)]: a stable sort,
    largest key first, equal keys in their original order. *)
Fixpoint insert_by_severity (c : Contradiction) (l : list Contradiction)
    : list Contradiction :=
  match l with
  | [] => [c]
  | d :: rest =>
      if severity_value (severity c) <? severity_value (severity d)
      then d :: insert_by_severity c rest
      else c :: d :: rest
  end.

Definition sorted_by_severity (l : list Contradiction) : list Contradiction :=
  fold_right insert_by_severity [] l.

(** [contradiction.resolution_attempts += 1] *)
Definition attempt (c : Contradiction) : Contradiction :=
  {| belief_a := belief_a c;
     belief_b := belief_b c;
     value_a := value_a c;
     value_b := value_b c;
     severity := severity c;
     timestamp := timestamp c;
     context := context c;
     resolution_attempts := resolution_attempts c + 1 |}.

(** The dictionary [resolution_results]. *)
Record ResolutionResults : Type := mkResults {
  contradictions_resolved : Z;
  res_entropy_cost : float;
  consciousness_delta : Q;
  preserved_information : Q
}.

(** What the [for contradiction in sorted_contradictions] loop updates:
    the two counters of the report and [self.resolved_contradictions]. *)
Definition resolve_step (acc : float * Z * list Contradiction)
    (contradiction : Contradiction) : float * Z * list Contradiction :=
  let '(cost, resolved, resolved_list) := acc in
  let strategy := resolution_strategies (severity contradiction) in
  (B64.add cost (snd (strategy contradiction)),
   resolved + 1,
   resolved_list ++ [attempt contradiction]).

Definition resolve_active_contradictions (self : LucidiaContradictionCortex)
    : LucidiaContradictionCortex * ResolutionResults :=
  let initial_phi := consciousness_phi_contribution (cortex self) in
  let sorted_contradictions := sorted_by_severity (active_contradictions self) in
  let '(cost, resolved, resolved_list) :=
    fold_left resolve_step sorted_contradictions
      (B64.zero, 0, resolved_contradictions self) in
  let final_phi := consciousness_phi_contribution (cortex self) in
  let total_beliefs := Z.of_nat (List.length (belief_network self)) in
  let uncertain_beliefs :=
    Z.of_nat (List.length
      (filter (fun v => v =? 0) (PyDict.values (belief_network self)))) in
  ({| cortex := cortex self;
      active_contradictions := [];
      resolved_contradictions := resolved_list;
      belief_network := belief_network self;
      confidence_network := confidence_network self |},
   {| contradictions_resolved := resolved;
      res_entropy_cost := cost;
      consciousness_delta := (final_phi - initial_phi)%Q;
      preserved_information :=
        (inject_Z uncertain_beliefs / inject_Z (Z.max total_beliefs 1%Z))%Q |}).

(** [np.mean] of a non-empty list of integers. *)
Definition np_mean (xs : list Z) : Q :=
  (inject_Z (fold_left Z.add xs 0%Z) / inject_Z (Z.of_nat (List.length xs)))%Q.

Definition system_coherence_score (self : LucidiaContradictionCortex) : Q :=
  match belief_network self with
  | [] => 1%Q
  | _ :: _ =>
      let contradiction_penalty :=
        (inject_Z (Z.of_nat (List.length (active_contradictions self))) * (1 # 10))%Q in
      let resolution_bonus :=
        (inject_Z (Z.of_nat (List.length (resolved_contradictions self))) * (1 # 20))%Q in
      let certainty_values := map Z.abs (PyDict.values (belief_network self)) in
      let base_coherence :=
        match certainty_values with
        | [] => 0%Q
        | _ :: _ => np_mean certainty_values
        end in
      Qmax 0 (Qmin 1 (base_coherence + resolution_bonus - contradiction_penalty))
  end.

Definition consciousness_enhancement_factor (self : LucidiaContradictionCortex) : Q :=
  let integration_factor :=
    (inject_Z (Z.of_nat (List.length (active_contradictions self))) * (2 # 10))%Q in
  let resolution_factor :=
    (inject_Z (Z.of_nat (List.length (resolved_contradictions self))) * (1 # 10))%Q in
  let uncertainty_factor :=
    (inject_Z (Z.of_nat (List.length
       (filter (fun v => (v =? 0)%Z) (PyDict.values (belief_network self))))) * (15 # 100))%Q in
  (integration_factor + resolution_factor + uncertainty_factor)%Q.

(** *** def contradiction_substrate_routing *)

(** Equality of Enum members. *)
Definition severity_eqb (s t : ContradictionSeverity) : bool :=
  match s, t with
  | SOFT, SOFT | MEDIUM, MEDIUM | HARD, HARD | CRITICAL, CRITICAL => true
  | _, _ => false
  end.

(** A [Dict[ContradictionSeverity, int]], in insertion order. *)
Definition severity_dict : Type := list (ContradictionSeverity * Z).

(** [d.get(key, default)] *)
Fixpoint severity_get (d : severity_dict) (key : ContradictionSeverity)
    (default : Z) : Z :=
  match d with
  | [] => default
  | (k, v) :: rest =>
      if severity_eqb k key then v else severity_get rest key default
  end.

Definition contradiction_substrate_routing (contradiction_count : Z)
    (severity_distribution : severity_dict) : string :=
  if 3 <? severity_get severity_distribution SOFT 0 then "chemical"
  else if 0 <? severity_get severity_distribution HARD 0 then "quantum"
  else "electronic".

End ContradictionResolver.

(** ** The loop of [reason_chain] as a fold

    The body of the loop as a function of the running pair and of an
    operation paired with the premise it reads, with the operator dispatch
    and the uncertainty measure of the code, and the loop as the fold of
    that body. *)

Module Loop.

Import TrinaryOperators.

Definition step (running : Z * Q) (paired : string * Z) : Z * Q :=
  let current_state := apply_operation (fst paired) (fst running) (snd paired) in
  (current_state, (snd running + uncertainty_measure current_state)%Q).

Definition run (first : Z) (rest : list Z) (operations : list string)
    : Z * Q :=
  fold_left step (combine operations rest) (first, 0%Q).

End Loop.

(** ** Reference definitions, written from the wording of the specification

    Each is what a sentence of the specification describes; the theorems
    below compare the embedded code with them. *)

Module Spec.

Import TrinaryOperators.
Import ContradictionResolver.

(** The trinary domain. *)
Definition trinary (a : Z) : Prop := a = -1 \/ a = 0 \/ a = 1.

Definition trits : list Z := [-1; 0; 1].

(** Kleene's strong implication, "not a, or b", with the operators of the
    source: max (- a) b. *)
Definition kleene_implies (a b : Z) : Z := TOR (TNOT a) b.

(** The sum of a list of numbers. *)
Definition Qsum (xs : list Q) : Q := fold_right Qplus 0%Q xs.

(** "1.0 if the new running result is 0, else 0.0" *)
Definition uncertainty (value : Z) : Q := if value =? 0 then 1%Q else 0%Q.

(** IMPLIES by its three rules: "if a = false, result is true; if a =
    unknown, result is unknown unless b = true, in which case result is
    true; if a = true, result = b". *)
Definition implies (a b : Z) : Z :=
  if a =? -1 then 1
  else if a =? 0 then (if b =? 1 then 1 else 0)
  else b.

(** The operator a tag stands for, applied to the running result [a] and the
    next premise [b]: "AND = min(a,b); OR = max(a,b)", IMPLIES as above.  A
    tag that names none of them applies no operator: the running result
    stays. *)
Definition evaluate (op : string) (a b : Z) : Z :=
  if string_dec op "AND" then Z.min a b
  else if string_dec op "OR" then Z.max a b
  else if string_dec op "IMPLIES" then implies a b
  else a.

(** One step of a chain: the operator applied to the running result and the
    next premise, and the uncertainty of the new running result added. *)
Definition chain_step (running : Z * Q) (step : string * Z) : Z * Q :=
  let result := evaluate (fst step) (fst running) (snd step) in
  (result, (snd running + uncertainty result)%Q).

(** "starts from the first premise, and for each operation in order (stopping
    if premises run out) ...": the operations are paired with the premises
    after the first, and the pairing stops with the shorter of the two. *)
Definition run_chain (first : Z) (rest : list Z) (operations : list string)
    : Z * Q :=
  fold_left chain_step (combine operations rest) (first, 0%Q).

(** "the sum of all recorded step uncertainties divided by (number of steps
    + 1)", 0.0 on an empty log. *)
Definition phi (uncertainties : list Q) : Q :=
  match uncertainties with
  | [] => 0%Q
  | _ :: _ =>
      (Qsum uncertainties / inject_Z (Z.of_nat (List.length uncertainties) + 1))%Q
  end.

(** The plain mean, which [phi] is said not to be. *)
Definition plain_mean (xs : list Q) : Q :=
  (Qsum xs / inject_Z (Z.of_nat (List.length xs)))%Q.

(** The entropy cost of a severity, the third column of the strategy table. *)
Definition severity_cost (s : ContradictionSeverity) : float :=
  match s with
  | SOFT => B64.zero
  | MEDIUM => B64.three_tenths
  | HARD => B64.half
  | CRITICAL => B64.one
  end.

(** "clamped to [0.0, 1.0]" *)
Definition clamp01 (x : Q) : Q :=
  if Qlt_le_dec x 0 then 0%Q
  else if Qlt_le_dec 1 x then 1%Q
  else x.

(** "mean of absolute belief values" *)
Definition mean_abs (values : list Z) : Q :=
  (inject_Z (fold_right Z.add 0%Z (map Z.abs values))
   / inject_Z (Z.of_nat (List.length values)))%Q.

(** "1.0 if the network is empty. Otherwise: mean of absolute belief values
    plus 0.05 x count of resolved contradictions minus 0.1 x count of active
    contradictions, clamped to [0.0, 1.0]." *)
Definition coherence (values : list Z) (n_active n_resolved : nat) : Q :=
  match values with
  | [] => 1%Q
  | _ :: _ =>
      clamp01 (mean_abs values
               + (1 # 20) * inject_Z (Z.of_nat n_resolved)
               - (1 # 10) * inject_Z (Z.of_nat n_active))%Q
  end.

(** "it moves, unmodified except for the incremented counter, into a
    resolved collection": [after] is [before], processed once. *)
Definition moved_once (before after : Contradiction) : Prop :=
  belief_a after = belief_a before
  /\ belief_b after = belief_b before
  /\ value_a after = value_a before
  /\ value_b after = value_b before
  /\ severity after = severity before
  /\ timestamp after = timestamp before
  /\ context after = context before
  /\ resolution_attempts after = resolution_attempts before + 1.

(** A dictionary holds each key once. *)
Definition well_formed {V : Type} (d : PyDict.dict V) : Prop :=
  NoDup (PyDict.keys d).

End Spec.

(** ** Engines of the scenarios *)

Module Scenario.

Import TrinaryOperators.
Import ContradictionResolver.

Definition fresh : LucidiaContradictionCortex := new_engine new_cortex.

(** After asserting "A" = 1. *)
Definition engine_A : LucidiaContradictionCortex :=
  fst (update_belief_network fresh "A" 1 1%Q).

(** After asserting "A" = 1, then "B" = -1. *)
Definition engine_A_B : LucidiaContradictionCortex :=
  fst (update_belief_network engine_A "B" (-1) 1%Q).

(** After asserting "A" = 1, then "A" = -1. *)
Definition engine_A_A : LucidiaContradictionCortex :=
  fst (update_belief_network engine_A "A" (-1) 1%Q).

(** The evaluator after run_chain([1, 0, -1], ["AND", "OR"]). *)
Definition cortex_and_or : LucidiaTrinaryCortex :=
  match reason_chain new_cortex [1; 0; -1] ["AND"; "OR"]%string with
  | Returned (trinary_cortex, _) => trinary_cortex
  | Raised _ => new_cortex
  end.

End Scenario.

(** ** Sessions: sequences of calls on one engine and its evaluator *)

Module Session.

Import TrinaryOperators.
Import ContradictionResolver.

(** The calls a user of the two classes can make.  The evaluator is the
    object the engine was built with ([self.cortex]), so the calls on it are
    calls of the session too. *)
Inductive call : Type :=
| UpdateBelief (belief_name : string) (value : Z) (confidence : Q)
| ResolveActive
| ReasonChain (premises : list Z) (operations : list string)
| DetectStatements (statement_a statement_b : Z).

Definition with_cortex (self : LucidiaContradictionCortex)
    (trinary_cortex : LucidiaTrinaryCortex) : LucidiaContradictionCortex :=
  {| cortex := trinary_cortex;
     active_contradictions := active_contradictions self;
     resolved_contradictions := resolved_contradictions self;
     belief_network := belief_network self;
     confidence_network := confidence_network self |}.

(** The engine after one call.  A [reason_chain] that raises does so at its
    first statement and leaves every object as it was. *)
Definition step (self : LucidiaContradictionCortex) (c : call)
    : LucidiaContradictionCortex :=
  match c with
  | UpdateBelief belief_name value confidence =>
      fst (update_belief_network self belief_name value confidence)
  | ResolveActive => fst (resolve_active_contradictions self)
  | ReasonChain premises operations =>
      match reason_chain (cortex self) premises operations with
      | Returned (trinary_cortex, _) => with_cortex self trinary_cortex
      | Raised _ => self
      end
  | DetectStatements statement_a statement_b =>
      with_cortex self
        (fst (TrinaryOperators.detect_contradiction (cortex self)
                statement_a statement_b))
  end.

Definition run (calls : list call) (self : LucidiaContradictionCortex)
    : LucidiaContradictionCortex :=
  fold_left step calls self.

(** Three beliefs at 0 and one at 1, resolved, then a new belief at -1: the
    active list is MEDIUM, MEDIUM, MEDIUM, HARD. *)
Definition three_medium_one_hard : LucidiaContradictionCortex :=
  run [UpdateBelief "A" 0 1%Q; UpdateBelief "B" 0 1%Q; UpdateBelief "C" 0 1%Q;
       UpdateBelief "D" 1 1%Q; ResolveActive; UpdateBelief "E" (-1) 1%Q]
    (new_engine new_cortex).

(** What every contradiction an engine holds was built as: two different
    values, HARD when they are opposite and MEDIUM otherwise. *)
Definition detected (c : Contradiction) : Prop :=
  value_a c <> value_b c
  /\ severity c = (if value_a c =? - value_b c then HARD else MEDIUM).

(** The two networks hold the same names, each once. *)
Definition networks_consistent (self : LucidiaContradictionCortex) : Prop :=
  NoDup (PyDict.keys (belief_network self))
  /\ PyDict.keys (confidence_network self) = PyDict.keys (belief_network self).

(** Active contradictions are as detected and unprocessed; resolved ones are
    as detected and processed once. *)
Definition contradictions_consistent (self : LucidiaContradictionCortex) : Prop :=
  Forall (fun c => detected c /\ resolution_attempts c = 0)
    (active_contradictions self)
  /\ Forall (fun c => detected c /\ resolution_attempts c = 1)
       (resolved_contradictions self).

(** Largest severity first. *)
Definition severity_descending (s t : ContradictionSeverity) : Prop :=
  severity_value t <= severity_value s.

End Session.

Import TrinaryOperators.
Import ContradictionResolver.

(** * Properties *)

(** ** Lists and sums *)

Lemma skipn_cons_nth_error {A : Type} (l : list A) (k : nat) (a : A) :
  nth_error l k = Some a -> skipn k l = a :: skipn (S k) l.
Proof.
  revert k; induction l as [| x l IH]; intros [| k] H; simpl in *;
    try discriminate.
  - now inversion H.
  - now apply IH.
Qed.

Lemma combine_nil_r {A B : Type} (l : list A) : combine l (@nil B) = [].
Proof. now destruct l. Qed.

Lemma list_index_in_range {A : Type} (l : list A) (i : nat) :
  (i < List.length l)%nat ->
  exists a, nth_error l i = Some a /\ list_index l i = Returned a.
Proof.
  intros H. unfold list_index.
  destruct (nth_error l i) as [a |] eqn:E.
  - now exists a.
  - apply nth_error_None in E. lia.
Qed.

Lemma fold_left_Qplus {A : Type} (f : A -> Q) (l : list A) (acc : Q) :
  fold_left (fun a x => (a + f x)%Q) l acc == (acc + Spec.Qsum (map f l))%Q.
Proof.
  revert acc; induction l as [| x l IH]; intros acc; simpl.
  - ring.
  - rewrite IH. ring.
Qed.



(** ** The trinary primitives *)

Lemma trinary_cases (a : Z) : Spec.trinary a <-> In a Spec.trits.
Proof. unfold Spec.trinary, Spec.trits; simpl; intuition lia. Qed.

(** C3, the part that fails: the rule set is said not to be Kleene
    implication, yet no pair of trinary values tells [TIMPLIES] apart from
    Kleene's strong implication "not a, or b". *)
Lemma TIMPLIES_not_apart_from_kleene :
  ~ (exists a b, In a Spec.trits /\ In b Spec.trits
                 /\ TIMPLIES a b <> Spec.kleene_implies a b).
Proof.
  intros (a & b & Ha & Hb & Hne). apply Hne.
  simpl in Ha, Hb.
  destruct Ha as [<- | [<- | [<- | []]]];
    destruct Hb as [<- | [<- | [<- | []]]]; reflexivity.
Qed.

(** C3, as amended: for trinary [a] and [b], IMPLIES(-1, b) = 1,
    IMPLIES(1, b) = b, IMPLIES(0, 1) = 1, IMPLIES(0, -1) = 0 and
    IMPLIES(0, 0) = 0; on the trinary domain this rule set is Kleene's strong
    implication OR(NOT a, b). *)
Theorem TIMPLIES_rules (a b : Z) :
  Spec.trinary a -> Spec.trinary b ->
  TIMPLIES (-1) b = 1
  /\ TIMPLIES 1 b = b
  /\ TIMPLIES 0 1 = 1
  /\ TIMPLIES 0 (-1) = 0
  /\ TIMPLIES 0 0 = 0
  /\ TIMPLIES a b = Spec.kleene_implies a b.
Proof.
  intros Ha Hb.
  assert (Hk : TIMPLIES a b = Spec.kleene_implies a b)
    by (destruct Ha as [-> | [-> | ->]], Hb as [-> | [-> | ->]]; reflexivity).
  repeat split; solve [reflexivity | exact Hk].
Qed.

Lemma TIMPLIES_rules_witness :
  TIMPLIES (-1) (-1) = 1
  /\ TIMPLIES 1 (-1) = -1
  /\ TIMPLIES 0 1 = 1
  /\ TIMPLIES 0 (-1) = 0
  /\ TIMPLIES 0 0 = 0
  /\ TIMPLIES 0 (-1) = Spec.kleene_implies 0 (-1).
Proof.
  apply (TIMPLIES_rules 0 (-1)); unfold Spec.trinary; lia.
Defined.

(** ** The reasoning chain *)

Lemma uncertainty_measure_spec (value : Z) :
  uncertainty_measure value = Spec.uncertainty value.
Proof. reflexivity. Qed.

(** The loop entered at index [i] is the fold of [Loop.step] over the
    operations paired with the premises from position [i + 1] on; the guard
    [i + 1 < len(premises)] keeps the read of [premises[i + 1]] in range. *)
Lemma chain_loop_fold (premises : list Z) (operations : list string) :
  forall (i : nat) (current : Z) (acc : Q),
    chain_loop premises i operations current acc
    = Returned (fold_left Loop.step
                  (combine operations (skipn (i + 1) premises)) (current, acc)).
Proof.
  induction operations as [| op rest IH]; intros i current acc; simpl.
  - reflexivity.
  - destruct (i + 1 <? List.length premises)%nat eqn:Hguard.
    + apply Nat.ltb_lt in Hguard.
      destruct (list_index_in_range premises (i + 1) Hguard) as (next & Hnth & Hidx).
      rewrite Hidx; simpl.
      rewrite (skipn_cons_nth_error _ _ _ Hnth); simpl.
      rewrite IH. now replace (S i + 1)%nat with (S (i + 1)) by lia.
    + apply Nat.ltb_ge in Hguard.
      rewrite IH.
      rewrite !skipn_all2 by lia.
      now rewrite combine_nil_r.
Qed.

Lemma reason_chain_cons (self : LucidiaTrinaryCortex) (first : Z)
    (rest : list Z) (operations : list string) :
  reason_chain self (first :: rest) operations
  = Returned
      ({| reasoning_history :=
            reasoning_history self
            ++ [ {| step_premises := first :: rest;
                    step_operations := operations;
                    step_result := fst (Loop.run first rest operations);
                    step_uncertainty := snd (Loop.run first rest operations) |} ];
          contradiction_count := contradiction_count self |},
       Loop.run first rest operations).
Proof.
  unfold reason_chain; simpl.
  now rewrite chain_loop_fold.
Qed.

Lemma combine_firstn_length {A B : Type} (l : list A) (l' : list B) :
  combine (firstn (List.length l') l) l' = combine l l'.
Proof.
  revert l'; induction l as [| x l IH]; intros [| y l']; simpl; try reflexivity.
  now rewrite IH.
Qed.

(** The accumulated uncertainty is the start value plus what the steps add,
    and the running result does not depend on the start value. *)
Lemma fold_chain_step_acc (steps : list (string * Z)) :
  forall (current : Z) (acc : Q),
    fst (fold_left Loop.step steps (current, acc))
    = fst (fold_left Loop.step steps (current, 0%Q))
    /\ snd (fold_left Loop.step steps (current, acc))
       == (acc + snd (fold_left Loop.step steps (current, 0%Q)))%Q.
Proof.
  induction steps as [| [op next] steps IH]; intros current acc; simpl.
  - split; [reflexivity | ring].
  - unfold Loop.step at 2 4 6 8; simpl.
    set (r := apply_operation op current next).
    destruct (IH r (acc + uncertainty_measure r)%Q) as [Hv Hu].
    destruct (IH r (0 + uncertainty_measure r)%Q) as [Hv0 Hu0].
    split.
    + now rewrite Hv, Hv0.
    + rewrite Hu, Hu0. ring.
Qed.

(** A first step that keeps the running result uses up its premise: the
    chain goes on as if neither the operation nor the premise were there,
    with the uncertainty of the first premise counted once. *)
Lemma run_chain_skips_premise (op : string) (first next : Z)
    (premises : list Z) (operations : list string) :
  (forall current n, apply_operation op current n = current) ->
  fst (Loop.run first (next :: premises) (op :: operations))
  = fst (Loop.run first premises operations)
  /\ snd (Loop.run first (next :: premises) (op :: operations))
     == (uncertainty_measure first
         + snd (Loop.run first premises operations))%Q.
Proof.
  intros Hkeep. unfold Loop.run.
  change (combine (op :: operations) (next :: premises))
    with ((op, next) :: combine operations premises).
  change (fold_left Loop.step ((op, next) :: combine operations premises)
            (first, 0%Q))
    with (fold_left Loop.step (combine operations premises)
            (apply_operation op first next,
             (0 + uncertainty_measure (apply_operation op first next))%Q)).
  rewrite Hkeep.
  destruct (fold_chain_step_acc (combine operations premises) first
              (0 + uncertainty_measure first)%Q) as [Hv Hu].
  split; [exact Hv |].
  rewrite Hu. ring.
Qed.

(** The scenario of the specification:
    run_chain([1, 0, -1], ["AND", "OR"]) is 0 with total uncertainty 2.0. *)
Example reason_chain_and_or :
  exists self',
    reason_chain new_cortex [1; 0; -1] ["AND"; "OR"]%string
    = Returned (self', (0, 2%Q)).
Proof. eexists; reflexivity. Qed.

(** The operator dispatch of the code applies the operator its tag stands
    for: minimum for "AND", maximum for "OR", the three rules for "IMPLIES",
    and nothing for any other tag. *)
Lemma apply_operation_evaluate (op : string) (a b : Z) :
  apply_operation op a b = Spec.evaluate op a b.
Proof.
  unfold apply_operation, Spec.evaluate.
  destruct (string_dec op "AND") as [-> | Hand]; [reflexivity |].
  apply String.eqb_neq in Hand. rewrite Hand.
  destruct (string_dec op "OR") as [-> | Hor]; [reflexivity |].
  apply String.eqb_neq in Hor. rewrite Hor.
  destruct (string_dec op "IMPLIES") as [-> | Himp].
  - cbn [String.eqb Ascii.eqb Bool.eqb].
    unfold TIMPLIES, Spec.implies, FALSE, UNKNOWN, TRUE.
    destruct (a =? -1), (a =? 0), (b =? 1); reflexivity.
  - apply String.eqb_neq in Himp. now rewrite Himp.
Qed.

Lemma loop_step_chain_step (running : Z * Q) (paired : string * Z) :
  Loop.step running paired = Spec.chain_step running paired.
Proof.
  unfold Loop.step, Spec.chain_step.
  now rewrite apply_operation_evaluate.
Qed.

(** The loop of the code computes the chain of the specification. *)
Lemma loop_run_chain (first : Z) (rest : list Z) (operations : list string) :
  Loop.run first rest operations = Spec.run_chain first rest operations.
Proof.
  unfold Loop.run, Spec.run_chain.
  generalize (first, 0%Q) as running.
  induction (combine operations rest) as [| paired steps IH]; intros running.
  - reflexivity.
  - cbn [fold_left]. now rewrite loop_step_chain_step, IH.
Qed.

(** C4: on a non-empty premise sequence [reason_chain] returns what the chain
    of the specification computes: from the first premise, each operation
    that still has a next premise is applied to the running result and that
    premise (minimum for "AND", maximum for "OR", the three rules for
    "IMPLIES") and the uncertainty of the new running result (1 if it is 0,
    else 0) is added; the call is logged as one reasoning step.  Operations
    beyond the premises change nothing (the result on all operations is the
    result on the first [len(premises) - 1] of them), and with no operation
    the result is the first premise with uncertainty 0. *)
Theorem reason_chain_runs_the_chain (self : LucidiaTrinaryCortex)
    (first : Z) (rest : list Z) (operations : list string) :
  (exists self',
      reason_chain self (first :: rest) operations
      = Returned (self', Spec.run_chain first rest operations)
      /\ reasoning_history self'
         = reasoning_history self
           ++ [ {| step_premises := first :: rest;
                   step_operations := operations;
                   step_result := fst (Spec.run_chain first rest operations);
                   step_uncertainty := snd (Spec.run_chain first rest operations) |} ])
  /\ (exists self1 self2 r,
         reason_chain self (first :: rest) operations = Returned (self1, r)
         /\ reason_chain self (first :: rest)
              (firstn (List.length rest) operations) = Returned (self2, r))
  /\ (exists self',
         reason_chain self (first :: rest) [] = Returned (self', (first, 0%Q))).
Proof.
  split; [| split].
  - eexists; split; [rewrite reason_chain_cons, loop_run_chain |]; reflexivity.
  - do 3 eexists; split; [apply reason_chain_cons |].
    rewrite reason_chain_cons. unfold Loop.run.
    now rewrite combine_firstn_length.
  - eexists. now rewrite reason_chain_cons.
Qed.

(** C9: with no premise the call raises at the read of [premises[0]]
    (nothing is logged: no receiver is returned); with at least one premise
    it returns, and the loop never raises, whatever index it is entered at. *)
Theorem reason_chain_raises_iff_no_premise (self : LucidiaTrinaryCortex)
    (operations : list string) :
  reason_chain self [] operations = Raised IndexError
  /\ (forall premises, premises <> [] ->
        exists r, reason_chain self premises operations = Returned r)
  /\ (forall premises i current acc,
        exists r, chain_loop premises i operations current acc = Returned r).
Proof.
  split; [reflexivity | split].
  - intros [| first rest] Hne; [congruence |].
    eexists; apply reason_chain_cons.
  - intros; eexists; apply chain_loop_fold.
Qed.

(** C10: an operation tag that is none of "AND", "OR", "IMPLIES", met while
    a next premise is available, leaves the running result as it is, adds
    the uncertainty of that unchanged result (1 if it is 0, else 0), and the
    loop goes on at the next index: the premise paired with the tag is used
    up.  For a whole call: the result is that of the chain without the tag
    and without the premise paired with it, plus the uncertainty of the
    first premise. *)
Theorem unknown_tag_keeps_state_and_consumes_premise (op : string) :
  op <> "AND"%string -> op <> "OR"%string -> op <> "IMPLIES"%string ->
  (forall current next, apply_operation op current next = current)
  /\ (forall premises i rest current acc,
        (i + 1 < List.length premises)%nat ->
        chain_loop premises i (op :: rest) current acc
        = chain_loop premises (S i) rest current
            (acc + (if (current =? 0)%Z then 1 else 0))%Q)
  /\ (forall self first next premises operations,
        exists self1 self2 value u1 u2,
          reason_chain self (first :: next :: premises) (op :: operations)
          = Returned (self1, (value, u1))
          /\ reason_chain self (first :: premises) operations
             = Returned (self2, (value, u2))
          /\ u1 == ((if (first =? 0)%Z then 1 else 0) + u2)%Q).
Proof.
  intros Hand Hor Himp.
  assert (Hkeep : forall current next, apply_operation op current next = current).
  { intros current next. unfold apply_operation.
    apply String.eqb_neq in Hand, Hor, Himp.
    now rewrite Hand, Hor, Himp. }
  split; [exact Hkeep | split].
  - intros premises i rest current acc Hlt.
    change (if (current =? 0)%Z then 1%Q else 0%Q)
      with (uncertainty_measure current).
    simpl.
    apply Nat.ltb_lt in Hlt as Hguard. rewrite Hguard.
    destruct (list_index_in_range premises (i + 1) Hlt) as (next & _ & ->).
    simpl. now rewrite Hkeep.
  - intros self first next premises operations.
    change (if (first =? 0)%Z then 1%Q else 0%Q)
      with (uncertainty_measure first).
    rewrite !reason_chain_cons.
    destruct (run_chain_skips_premise op first next premises operations Hkeep)
      as [Hv Hu].
    destruct (Loop.run first (next :: premises) (op :: operations))
      as [v1 u1].
    destruct (Loop.run first premises operations) as [v2 u2].
    simpl in Hv, Hu. subst v2.
    do 5 eexists. split; [reflexivity | split; [reflexivity | exact Hu]].
Qed.

Lemma unknown_tag_witness :
  (forall current next, apply_operation "NOT" current next = current)
  /\ (forall premises i rest current acc,
        (i + 1 < List.length premises)%nat ->
        chain_loop premises i ("NOT"%string :: rest) current acc
        = chain_loop premises (S i) rest current
            (acc + (if (current =? 0)%Z then 1 else 0))%Q)
  /\ (forall self first next premises operations,
        exists self1 self2 value u1 u2,
          reason_chain self (first :: next :: premises)
            ("NOT"%string :: operations)
          = Returned (self1, (value, u1))
          /\ reason_chain self (first :: premises) operations
             = Returned (self2, (value, u2))
          /\ u1 == ((if (first =? 0)%Z then 1 else 0) + u2)%Q).
Proof.
  apply (unknown_tag_keeps_state_and_consumes_premise "NOT"); discriminate.
Defined.

(** A "NOT" in a chain: the premise 1 paired with it is skipped, the
    unknown running result is counted once more, and "OR" meets -1. *)
Example reason_chain_not_or :
  exists self',
    reason_chain new_cortex [0; 1; -1] ["NOT"; "OR"]%string
    = Returned (self', (0, 2%Q)).
Proof. eexists; reflexivity. Qed.

(** ** The phi contribution *)

Lemma total_uncertainty_sum (history : list ReasoningStep) :
  total_uncertainty history == Spec.Qsum (map step_uncertainty history).
Proof.
  unfold total_uncertainty. rewrite fold_left_Qplus. ring.
Qed.

(** C8: the phi contribution is 0.0 on an empty log and otherwise the sum of
    the recorded uncertainties divided by the number of steps plus one; this
    is not the plain mean (a log of one step of uncertainty 1 gives 1/2, the
    mean is 1). *)
Theorem phi_contribution_formula (self : LucidiaTrinaryCortex) :
  (reasoning_history self = [] -> consciousness_phi_contribution self = 0%Q)
  /\ consciousness_phi_contribution self
     == Spec.phi (map step_uncertainty (reasoning_history self))
  /\ (reasoning_history self <> [] ->
      consciousness_phi_contribution self
      == (Spec.Qsum (map step_uncertainty (reasoning_history self))
          / inject_Z (Z.of_nat (List.length (reasoning_history self)) + 1))%Q)
  /\ (exists one_step,
        reasoning_history one_step <> []
        /\ ~ consciousness_phi_contribution one_step
             == Spec.plain_mean (map step_uncertainty (reasoning_history one_step))).
Proof.
  unfold consciousness_phi_contribution.
  destruct (reasoning_history self) as [| step history] eqn:Hh.
  - repeat split; try reflexivity; try congruence.
    exists {| reasoning_history := [mkStep [0] [] 0 1%Q]; contradiction_count := 0 |}.
    split; [discriminate | vm_compute; discriminate].
  - split; [discriminate | split; [| split]].
    + unfold Spec.phi. simpl map. cbv iota.
      rewrite total_uncertainty_sum. simpl List.length.
      now rewrite length_map.
    + intros _. now rewrite total_uncertainty_sum.
    + exists {| reasoning_history := [mkStep [0] [] 0 1%Q]; contradiction_count := 0 |}.
      split; [discriminate | vm_compute; discriminate].
Qed.

(** ** The contradiction detector *)

(** What a detected contradiction records, and when there is one. *)
Lemma detect_contradiction_some (name_a : string) (a : Z) (name_b : string)
    (b : Z) (c : Contradiction) :
  ContradictionResolver.detect_contradiction name_a a name_b b = Some c ->
  a <> b /\ belief_a c = name_a /\ belief_b c = name_b
  /\ value_a c = a /\ value_b c = b /\ resolution_attempts c = 0.
Proof.
  unfold ContradictionResolver.detect_contradiction.
  destruct (a =? b) eqn:E; [discriminate |].
  apply Z.eqb_neq in E.
  intros H; inversion H; subst; simpl. tauto.
Qed.

Lemma detect_contradiction_differ (name_a : string) (a : Z) (name_b : string)
    (b : Z) :
  a <> b ->
  exists c, ContradictionResolver.detect_contradiction name_a a name_b b = Some c.
Proof.
  intros H. unfold ContradictionResolver.detect_contradiction.
  apply Z.eqb_neq in H. rewrite H. eexists; reflexivity.
Qed.

(** C2, as stated, fails: on the values 0 and 0 the detector returns no
    record at all, so none of severity SOFT. *)
Lemma detect_zero_zero_no_record :
  ~ (exists c,
        ContradictionResolver.detect_contradiction "A" 0 "B" 0 = Some c
        /\ severity c = SOFT).
Proof. intros (c & H & _). discriminate H. Qed.

(** C2, as amended: called with value_a = 0 and value_b = 0 the detector
    returns no Contradiction record, as it does for any two equal values:
    equal values are no conflict. *)
Theorem detect_equal_values_no_record (name_a name_b : string) (value : Z) :
  ContradictionResolver.detect_contradiction name_a 0 name_b 0 = None
  /\ ContradictionResolver.detect_contradiction name_a value name_b value
     = None.
Proof.
  split; [reflexivity |].
  unfold ContradictionResolver.detect_contradiction.
  now rewrite Z.eqb_refl.
Qed.

(** The severities the detector does return on trinary values. *)
Example detect_severities :
  map (fun p => option_map severity
                  (ContradictionResolver.detect_contradiction "A" (fst p) "B" (snd p)))
    [(0, 1); (0, -1); (1, 0); (-1, 0); (1, -1); (-1, 1); (1, 1); (0, 0); (-1, -1)]
  = [Some MEDIUM; Some MEDIUM; Some MEDIUM; Some MEDIUM; Some HARD; Some HARD;
     None; None; None].
Proof. reflexivity. Qed.

(** ** Dictionaries *)

Lemma set_keys_in {V : Type} (k k0 : string) (v : V) (d : PyDict.dict V) :
  In k0 (PyDict.keys (PyDict.set k v d)) <-> k0 = k \/ In k0 (PyDict.keys d).
Proof.
  induction d as [| [k' v'] d IH]; simpl.
  - intuition.
  - destruct (String.eqb k' k) eqn:E; simpl.
    + apply String.eqb_eq in E; subst. intuition.
    + rewrite IH. intuition.
Qed.

(** Assignment keeps the keys of a dictionary distinct. *)
Lemma set_well_formed {V : Type} (k : string) (v : V) (d : PyDict.dict V) :
  Spec.well_formed d -> Spec.well_formed (PyDict.set k v d).
Proof.
  unfold Spec.well_formed.
  induction d as [| [k' v'] d IH]; simpl; intros H.
  - constructor; [intros [] | constructor].
  - inversion H as [| ? ? Hnotin Hd]; subst.
    destruct (String.eqb k' k) eqn:E; simpl.
    + apply String.eqb_eq in E; subst. now constructor.
    + constructor; [| now apply IH].
      rewrite set_keys_in. apply String.eqb_neq in E.
      intros [-> | Hin]; [congruence | contradiction].
Qed.

(** In a well-formed dictionary the entries are what [get] reads. *)
Lemma get_in {V : Type} (k : string) (v : V) (d : PyDict.dict V) :
  Spec.well_formed d ->
  (In (k, v) (PyDict.items d) <-> PyDict.get k d = Some v).
Proof.
  unfold Spec.well_formed, PyDict.items.
  induction d as [| [k' v'] d IH]; simpl; intros H.
  - split; [intros [] | discriminate].
  - inversion H as [| ? ? Hnotin Hd]; subst.
    destruct (String.eqb k' k) eqn:E.
    + apply String.eqb_eq in E; subst. split.
      * intros [Heq | Hin]; [now inversion Heq |].
        exfalso. apply Hnotin. now apply (in_map fst) in Hin.
      * intros Heq; inversion Heq; now left.
    + apply String.eqb_neq in E. rewrite <- (IH Hd). split.
      * intros [Heq | Hin]; [inversion Heq; congruence | exact Hin].
      * now right.
Qed.

(** ** Belief updates *)

(** The contradictions an update finds, entry by entry. *)
Lemma detect_against_flat_map (name : string) (value : Z)
    (network : PyDict.dict Z) :
  detect_against name value network
  = flat_map
      (fun entry =>
         match ContradictionResolver.detect_contradiction
                 (fst entry) (snd entry) name value with
         | Some c => [c]
         | None => []
         end)
      (PyDict.items network).
Proof.
  unfold detect_against, PyDict.items.
  enough (Hacc : forall acc,
    fold_left
      (fun new_contradictions entry =>
         match ContradictionResolver.detect_contradiction
                 (fst entry) (snd entry) name value with
         | Some contradiction => new_contradictions ++ [contradiction]
         | None => new_contradictions
         end) network acc
    = acc ++ flat_map
               (fun entry =>
                  match ContradictionResolver.detect_contradiction
                          (fst entry) (snd entry) name value with
                  | Some c => [c]
                  | None => []
                  end) network)
    by apply (Hacc []).
  induction network as [| entry network IH]; intros acc; simpl.
  - now rewrite app_nil_r.
  - rewrite IH.
    destruct (ContradictionResolver.detect_contradiction _ _ _ _); simpl.
    + now rewrite <- app_assoc.
    + reflexivity.
Qed.

Lemma in_detect_against (name : string) (value : Z) (network : PyDict.dict Z)
    (c : Contradiction) :
  In c (detect_against name value network)
  <-> exists k v, In (k, v) (PyDict.items network)
                  /\ ContradictionResolver.detect_contradiction k v name value
                     = Some c.
Proof.
  rewrite detect_against_flat_map, in_flat_map. split.
  - intros ([k v] & Hin & Hc). exists k, v. split; [exact Hin |].
    simpl in Hc.
    destruct (ContradictionResolver.detect_contradiction k v name value);
      simpl in Hc; [| contradiction].
    destruct Hc as [-> | []]. reflexivity.
  - intros (k & v & Hin & Hc). exists (k, v). split; [exact Hin |].
    simpl. rewrite Hc. now left.
Qed.

(** An update keeps both networks well formed. *)
Lemma update_belief_network_well_formed (self : LucidiaContradictionCortex)
    (name : string) (value : Z) (confidence : Q) :
  Spec.well_formed (belief_network self) ->
  Spec.well_formed (confidence_network self) ->
  Spec.well_formed
    (belief_network (fst (update_belief_network self name value confidence)))
  /\ Spec.well_formed
       (confidence_network (fst (update_belief_network self name value confidence))).
Proof.
  intros Hb Hc; simpl; split; now apply set_well_formed.
Qed.

(** C1, as stated, fails: "A" is in the network with value 1, no
    contradiction is active, and asserting "A" = -1 appends a contradiction
    whose two belief names are both "A". *)
Lemma update_creates_self_conflict :
  PyDict.get "A" (belief_network Scenario.engine_A) = Some 1
  /\ active_contradictions Scenario.engine_A = []
  /\ exists c,
       active_contradictions
         (fst (update_belief_network Scenario.engine_A "A" (-1) 1%Q)) = [c]
       /\ belief_a c = "A"%string /\ belief_b c = "A"%string.
Proof.
  split; [reflexivity | split; [reflexivity |]].
  eexists; split; [reflexivity | split; reflexivity].
Qed.

(** C1, as amended: an update for [name] appends to the active list one
    contradiction per network entry whose value differs from the new value,
    naming that entry first and [name] second.  The entry of [name] itself
    is among those compared: a contradiction whose two belief names are both
    [name] is created exactly when [name] is present with a prior value
    different from the new one; when it is absent, or its value is
    unchanged, every contradiction created has two distinct belief names. *)
Theorem update_belief_network_conflicts (self : LucidiaContradictionCortex)
    (name : string) (value : Z) (confidence : Q) :
  Spec.well_formed (belief_network self) ->
  exists new_contradictions,
    active_contradictions (fst (update_belief_network self name value confidence))
    = active_contradictions self ++ new_contradictions
    /\ snd (update_belief_network self name value confidence)
       = Z.of_nat (List.length new_contradictions)
    /\ (forall c, In c new_contradictions ->
          belief_b c = name /\ value_b c = value
          /\ PyDict.get (belief_a c) (belief_network self) = Some (value_a c)
          /\ value_a c <> value)
    /\ ((exists c, In c new_contradictions
                   /\ belief_a c = name /\ belief_b c = name)
        <-> (exists prior, PyDict.get name (belief_network self) = Some prior
                           /\ prior <> value))
    /\ ((forall prior, PyDict.get name (belief_network self) = Some prior ->
                       prior = value) ->
        forall c, In c new_contradictions -> belief_a c <> belief_b c).
Proof.
  intros Hwf.
  exists (detect_against name value (belief_network self)).
  assert (Hnew : forall c,
             In c (detect_against name value (belief_network self)) ->
             belief_b c = name /\ value_b c = value
             /\ PyDict.get (belief_a c) (belief_network self) = Some (value_a c)
             /\ value_a c <> value).
  { intros c Hin. apply in_detect_against in Hin as (k & v & Hin & Hc).
    apply detect_contradiction_some in Hc as (Hne & -> & -> & -> & -> & _).
    repeat split; try assumption. now apply get_in. }
  split; [reflexivity | split; [reflexivity | split; [exact Hnew | split]]].
  - split.
    + intros (c & Hin & Ha & _). exists (value_a c).
      destruct (Hnew c Hin) as (_ & _ & Hget & Hne).
      rewrite Ha in Hget. now split.
    + intros (prior & Hget & Hne).
      destruct (detect_contradiction_differ name prior name value Hne) as [c Hc].
      exists c. split.
      * apply in_detect_against. exists name, prior.
        split; [now apply get_in | exact Hc].
      * apply detect_contradiction_some in Hc. tauto.
  - intros Hsame c Hin Heq.
    destruct (Hnew c Hin) as (Hb & _ & Hget & Hne).
    rewrite Heq, Hb in Hget. apply Hne. now apply Hsame.
Qed.

Lemma update_belief_network_conflicts_witness :
  exists new_contradictions,
    active_contradictions
      (fst (update_belief_network Scenario.engine_A "A" (-1) 1%Q))
    = active_contradictions Scenario.engine_A ++ new_contradictions
    /\ snd (update_belief_network Scenario.engine_A "A" (-1) 1%Q)
       = Z.of_nat (List.length new_contradictions)
    /\ (forall c, In c new_contradictions ->
          belief_b c = "A"%string /\ value_b c = -1
          /\ PyDict.get (belief_a c) (belief_network Scenario.engine_A)
             = Some (value_a c)
          /\ value_a c <> -1)
    /\ ((exists c, In c new_contradictions
                   /\ belief_a c = "A"%string /\ belief_b c = "A"%string)
        <-> (exists prior,
                PyDict.get "A" (belief_network Scenario.engine_A) = Some prior
                /\ prior <> -1))
    /\ ((forall prior,
            PyDict.get "A" (belief_network Scenario.engine_A) = Some prior ->
            prior = -1) ->
        forall c, In c new_contradictions -> belief_a c <> belief_b c).
Proof.
  apply (update_belief_network_conflicts Scenario.engine_A "A" (-1) 1%Q).
  unfold Spec.well_formed; simpl.
  constructor; [intros [] | constructor].
Defined.

(** ** Resolution *)

Lemma insert_by_severity_Permutation (c : Contradiction)
    (l : list Contradiction) :
  Permutation (insert_by_severity c l) (c :: l).
Proof.
  induction l as [| d l IH]; simpl.
  - reflexivity.
  - destruct (severity_value (severity c) <? severity_value (severity d)).
    + rewrite IH. apply perm_swap.
    + reflexivity.
Qed.

(** Sorting rearranges the active contradictions and loses none. *)
Lemma sorted_by_severity_Permutation (l : list Contradiction) :
  Permutation (sorted_by_severity l) l.
Proof.
  induction l as [| c l IH]; simpl.
  - reflexivity.
  - rewrite insert_by_severity_Permutation. now constructor.
Qed.

Lemma insert_by_severity_sorted (c : Contradiction) (l : list Contradiction) :
  StronglySorted Session.severity_descending (map severity l) ->
  StronglySorted Session.severity_descending
    (map severity (insert_by_severity c l)).
Proof.
  unfold Session.severity_descending.
  induction l as [| d l IH]; simpl; intros H.
  - repeat constructor.
  - apply StronglySorted_inv in H as [Hl Hd].
    destruct (severity_value (severity c) <? severity_value (severity d)) eqn:E;
      simpl.
    + apply Z.ltb_lt in E. constructor; [now apply IH |].
      rewrite Forall_forall in *. intros s Hs.
      apply in_map_iff in Hs as (x & <- & Hx).
      apply (Permutation_in _ (insert_by_severity_Permutation c l)) in Hx.
      destruct Hx as [<- | Hx]; [lia |].
      apply Hd. now apply in_map.
    + apply Z.ltb_ge in E. constructor.
      * now constructor.
      * constructor; [exact E |].
        rewrite Forall_forall in *. intros s Hs. specialize (Hd s Hs). lia.
Qed.

Lemma sorted_by_severity_sorted (l : list Contradiction) :
  StronglySorted Session.severity_descending
    (map severity (sorted_by_severity l)).
Proof.
  induction l as [| c l IH]; simpl.
  - constructor.
  - now apply insert_by_severity_sorted.
Qed.

Lemma severity_eqb_eq (s t : ContradictionSeverity) :
  severity_eqb s t = true <-> s = t.
Proof. destruct s, t; simpl; split; congruence. Qed.

(** Insertion moves a contradiction only past ones of another severity. *)
Lemma filter_insert_by_severity (s : ContradictionSeverity) (c : Contradiction)
    (l : list Contradiction) :
  filter (fun x => severity_eqb (severity x) s) (insert_by_severity c l)
  = filter (fun x => severity_eqb (severity x) s) (c :: l).
Proof.
  induction l as [| d l IH]; [reflexivity |].
  cbn [insert_by_severity].
  destruct (severity_value (severity c) <? severity_value (severity d)) eqn:E;
    [| reflexivity].
  apply Z.ltb_lt in E. cbn [filter] in *. rewrite IH.
  destruct (severity_eqb (severity c) s) eqn:Ec,
           (severity_eqb (severity d) s) eqn:Ed; try reflexivity.
  apply severity_eqb_eq in Ec, Ed. rewrite Ec, Ed in E. lia.
Qed.

Lemma filter_sorted_by_severity (s : ContradictionSeverity)
    (l : list Contradiction) :
  filter (fun x => severity_eqb (severity x) s) (sorted_by_severity l)
  = filter (fun x => severity_eqb (severity x) s) l.
Proof.
  induction l as [| c l IH]; [reflexivity |].
  cbn [sorted_by_severity fold_right].
  rewrite filter_insert_by_severity. cbn [filter].
  fold (sorted_by_severity l). now rewrite IH.
Qed.

(** Largest severity first, equal severities in the order they came in. *)
Example sorted_by_severity_stable :
  map (fun c => (severity c, belief_a c))
    (sorted_by_severity
       (map (fun p => mkContradiction (snd p) "x" 0 0 (fst p) 0%Q EmptyString 0)
          [(SOFT, "s"); (HARD, "h1"); (MEDIUM, "m"); (HARD, "h2");
           (CRITICAL, "c")]%string))
  = [(CRITICAL, "c"); (HARD, "h1"); (HARD, "h2"); (MEDIUM, "m");
     (SOFT, "s")]%string.
Proof. reflexivity. Qed.

(** The cost a strategy returns depends on the severity alone. *)
Lemma strategy_cost (c : Contradiction) :
  snd (resolution_strategies (severity c) c) = Spec.severity_cost (severity c).
Proof. now destruct (severity c). Qed.

Lemma attempt_moved_once (c : Contradiction) : Spec.moved_once c (attempt c).
Proof. unfold Spec.moved_once; simpl; tauto. Qed.

(** The resolution loop over [l]: costs added from the left, one count and
    one resolved entry per contradiction. *)
Lemma fold_resolve_step (l : list Contradiction) :
  forall (cost : float) (resolved : Z) (resolved_list : list Contradiction),
    fold_left resolve_step l (cost, resolved, resolved_list)
    = (fold_left
         (fun acc c => B64.add acc (snd (resolution_strategies (severity c) c)))
         l cost,
       resolved + Z.of_nat (List.length l),
       resolved_list ++ map attempt l).
Proof.
  induction l as [| c l IH]; intros cost resolved resolved_list.
  - simpl. now rewrite Z.add_0_r, app_nil_r.
  - cbn [fold_left]. unfold resolve_step at 2. rewrite IH.
    cbn [List.length map]. rewrite <- app_assoc. simpl app.
    replace (resolved + 1 + Z.of_nat (List.length l))
      with (resolved + Z.of_nat (S (List.length l))) by lia.
    reflexivity.
Qed.

(** The engine and the report of a resolution, with the loop unrolled. *)
Lemma resolve_active_contradictions_unfold (self : LucidiaContradictionCortex) :
  resolve_active_contradictions self
  = ({| cortex := cortex self;
        active_contradictions := [];
        resolved_contradictions :=
          resolved_contradictions self
          ++ map attempt (sorted_by_severity (active_contradictions self));
        belief_network := belief_network self;
        confidence_network := confidence_network self |},
     {| contradictions_resolved :=
          0 + Z.of_nat (List.length (sorted_by_severity (active_contradictions self)));
        res_entropy_cost :=
          fold_left
            (fun acc c => B64.add acc (snd (resolution_strategies (severity c) c)))
            (sorted_by_severity (active_contradictions self)) B64.zero;
        consciousness_delta :=
          (consciousness_phi_contribution (cortex self)
           - consciousness_phi_contribution (cortex self))%Q;
        preserved_information :=
          (inject_Z
             (Z.of_nat (List.length
                (filter (fun v => v =? 0) (PyDict.values (belief_network self)))))
           / inject_Z (Z.max (Z.of_nat (List.length (belief_network self))) 1%Z))%Q |}).
Proof.
  unfold resolve_active_contradictions.
  now rewrite fold_resolve_step.
Qed.

Lemma Forall2_map_r {A B : Type} (R : A -> B -> Prop) (f : A -> B)
    (l : list A) :
  (forall a, R a (f a)) -> Forall2 R l (map f l).
Proof. intros H; induction l; simpl; constructor; auto. Qed.

(** The costs the strategies return for [l], added from the left. *)
Lemma fold_strategy_costs (l : list Contradiction) (start : float) :
  fold_left
    (fun acc c => B64.add acc (snd (resolution_strategies (severity c) c)))
    l start
  = fold_left B64.add
      (map (fun c => Spec.severity_cost (severity c)) l) start.
Proof.
  revert start; induction l as [| c l IH]; intros start; simpl;
    [reflexivity |].
  now rewrite IH, strategy_cost.
Qed.

(** C5, as stated, fails on the entropy cost.  With the active list MEDIUM,
    MEDIUM, MEDIUM, HARD the resolution adds 0.5 first and reports
    1.4000000000000001 (0x1.6666666666667p+0), whereas the costs of the
    active list added as they stand give 1.4 (0x1.6666666666666p+0), which is
    also the binary64 value nearest to 7/5. *)
Lemma resolve_cost_not_the_sum_over_active :
  map severity (active_contradictions Session.three_medium_one_hard)
  = [MEDIUM; MEDIUM; MEDIUM; HARD]
  /\ res_entropy_cost
       (snd (resolve_active_contradictions Session.three_medium_one_hard))
     = 0x1.6666666666667p+0%float
  /\ B64.sum (map (fun c => Spec.severity_cost (severity c))
                (active_contradictions Session.three_medium_one_hard))
     = 0x1.6666666666666p+0%float
  /\ res_entropy_cost
       (snd (resolve_active_contradictions Session.three_medium_one_hard))
     <> B64.sum (map (fun c => Spec.severity_cost (severity c))
                   (active_contradictions Session.three_medium_one_hard)).
Proof.
  split; [reflexivity | split; [reflexivity | split; [reflexivity |]]].
  intros H.
  apply (f_equal (fun x => PrimFloat.eqb x 0x1.6666666666667p+0%float)) in H.
  vm_compute in H. discriminate H.
Qed.

(** C5, as amended: a resolution empties the active list; the resolved list
    grows by the prior active count: by the prior active contradictions in
    the order of processing (largest severity first, equal severities in
    list order), each with its attempt counter one higher and nothing else
    changed; the report counts them, and its entropy cost is the binary64
    sum, from 0.0 and in that order of processing, of their severities' costs
    (SOFT 0.0, MEDIUM 0.3, HARD 0.5, CRITICAL 1.0).  After "A" = 1 and
    "B" = -1, the second update returns 1, the conflict is HARD, and the
    resolution reports entropy cost 0.5 and 1 resolved, and leaves no active
    contradiction. *)
Theorem resolve_active_contradictions_moves_all
    (self : LucidiaContradictionCortex) :
  active_contradictions (fst (resolve_active_contradictions self)) = []
  /\ List.length (resolved_contradictions (fst (resolve_active_contradictions self)))
     = (List.length (resolved_contradictions self)
        + List.length (active_contradictions self))%nat
  /\ (exists moved added,
         Permutation moved (active_contradictions self)
         /\ StronglySorted Session.severity_descending (map severity moved)
         /\ (forall s,
               filter (fun c => severity_eqb (severity c) s) moved
               = filter (fun c => severity_eqb (severity c) s)
                   (active_contradictions self))
         /\ Forall2 Spec.moved_once moved added
         /\ resolved_contradictions (fst (resolve_active_contradictions self))
            = resolved_contradictions self ++ added
         /\ res_entropy_cost (snd (resolve_active_contradictions self))
            = B64.sum (map (fun c => Spec.severity_cost (severity c)) moved))
  /\ contradictions_resolved (snd (resolve_active_contradictions self))
     = Z.of_nat (List.length (active_contradictions self))
  /\ (snd (update_belief_network Scenario.engine_A "B" (-1) 1%Q) = 1
      /\ map severity (active_contradictions Scenario.engine_A_B) = [HARD]
      /\ res_entropy_cost (snd (resolve_active_contradictions Scenario.engine_A_B))
         = 0.5%float
      /\ contradictions_resolved
           (snd (resolve_active_contradictions Scenario.engine_A_B)) = 1
      /\ active_contradictions
           (fst (resolve_active_contradictions Scenario.engine_A_B)) = []).
Proof.
  rewrite resolve_active_contradictions_unfold.
  cbn [fst snd active_contradictions resolved_contradictions
       contradictions_resolved res_entropy_cost].
  pose proof (sorted_by_severity_Permutation (active_contradictions self)) as Hperm.
  split; [reflexivity | split; [| split; [| split]]].
  - rewrite length_app, length_map. f_equal.
    now apply Permutation_length.
  - exists (sorted_by_severity (active_contradictions self)),
      (map attempt (sorted_by_severity (active_contradictions self))).
    split; [exact Hperm |].
    split; [apply sorted_by_severity_sorted |].
    split; [intros s; apply filter_sorted_by_severity |].
    split; [apply Forall2_map_r, attempt_moved_once |].
    split; [reflexivity | apply fold_strategy_costs].
  - rewrite Z.add_0_l. f_equal. now apply Permutation_length.
  - repeat split; reflexivity.
Qed.

(** C6: a resolution leaves the belief network and the confidence network
    as they were, name by name, and the evaluator with its reasoning log as
    it was; the consciousness delta it reports is 0. *)
Theorem resolve_active_contradictions_frame
    (self : LucidiaContradictionCortex) :
  belief_network (fst (resolve_active_contradictions self))
  = belief_network self
  /\ confidence_network (fst (resolve_active_contradictions self))
     = confidence_network self
  /\ (forall name,
        PyDict.get name (belief_network (fst (resolve_active_contradictions self)))
        = PyDict.get name (belief_network self)
        /\ PyDict.get name
             (confidence_network (fst (resolve_active_contradictions self)))
           = PyDict.get name (confidence_network self))
  /\ reasoning_history (cortex (fst (resolve_active_contradictions self)))
     = reasoning_history (cortex self)
  /\ consciousness_delta (snd (resolve_active_contradictions self)) == 0.
Proof.
  rewrite resolve_active_contradictions_unfold; simpl.
  repeat split; try reflexivity. ring.
Qed.

(** ** Coherence *)

Lemma fold_left_Zadd (xs : list Z) (acc : Z) :
  fold_left Z.add xs acc = acc + fold_right Z.add 0 xs.
Proof.
  revert acc; induction xs as [| x xs IH]; intros acc; simpl.
  - lia.
  - rewrite IH. lia.
Qed.

Lemma np_mean_abs (values : list Z) :
  np_mean (map Z.abs values) = Spec.mean_abs values.
Proof.
  unfold np_mean, Spec.mean_abs.
  now rewrite fold_left_Zadd, length_map.
Qed.

(** [max(0.0, min(1.0, x))] clamps [x] into [0, 1]. *)
Lemma max_min_clamp (x : Q) : Qmax 0 (Qmin 1 x) == Spec.clamp01 x.
Proof.
  unfold Spec.clamp01.
  destruct (Qlt_le_dec x 0) as [Hneg | Hpos].
  - rewrite (Q.min_r 1 x) by lra. apply Q.max_l. lra.
  - destruct (Qlt_le_dec 1 x) as [Hbig | Hsmall].
    + rewrite (Q.min_l 1 x) by lra. apply Q.max_r. lra.
    + rewrite (Q.min_r 1 x) by lra. now apply Q.max_r.
Qed.

Lemma max_min_bounds (x : Q) : (0 <= Qmax 0 (Qmin 1 x) <= 1)%Q.
Proof.
  split.
  - apply Q.le_max_l.
  - apply Q.max_lub; [lra | apply Q.le_min_l].
Qed.

(** C7: the coherence score is exactly 1.0 on an empty belief network;
    otherwise it is the mean of the absolute belief values plus 0.05 times
    the resolved count minus 0.1 times the active count, clamped into
    [0, 1]; in both cases it lies in [0, 1]. *)
Theorem system_coherence_score_formula (self : LucidiaContradictionCortex) :
  (belief_network self = [] -> system_coherence_score self = 1%Q)
  /\ system_coherence_score self
     == Spec.coherence (PyDict.values (belief_network self))
          (List.length (active_contradictions self))
          (List.length (resolved_contradictions self))
  /\ (belief_network self <> [] ->
      system_coherence_score self
      == Spec.clamp01
           (Spec.mean_abs (PyDict.values (belief_network self))
            + (1 # 20) * inject_Z (Z.of_nat (List.length (resolved_contradictions self)))
            - (1 # 10) * inject_Z (Z.of_nat (List.length (active_contradictions self)))))
  /\ (0 <= system_coherence_score self <= 1)%Q.
Proof.
  unfold system_coherence_score, Spec.coherence, PyDict.values.
  destruct (belief_network self) as [| entry network] eqn:Hnet.
  - simpl. repeat split; try reflexivity; try lra. congruence.
  - assert (Hscore :
      Qmax 0
        (Qmin 1
           (match map Z.abs (map snd (entry :: network)) with
            | [] => 0
            | _ :: _ => np_mean (map Z.abs (map snd (entry :: network)))
            end
            + inject_Z (Z.of_nat (List.length (resolved_contradictions self))) * (1 # 20)
            - inject_Z (Z.of_nat (List.length (active_contradictions self))) * (1 # 10)))
      == Spec.clamp01
           (Spec.mean_abs (map snd (entry :: network))
            + (1 # 20) * inject_Z (Z.of_nat (List.length (resolved_contradictions self)))
            - (1 # 10) * inject_Z (Z.of_nat (List.length (active_contradictions self))))).
    { rewrite <- max_min_clamp.
      apply Q.max_compat; [reflexivity |].
      apply Q.min_compat; [reflexivity |].
      rewrite <- np_mean_abs. simpl map. cbv iota. ring. }
    split; [discriminate | split; [exact Hscore | split; [intros _; exact Hscore |]]].
    apply max_min_bounds.
Qed.


(** * Further properties of the code *)

(** ** The trinary primitives, on their own *)

Lemma apply_operation_range (op : string) (current next : Z) :
  apply_operation op current next = current
  \/ apply_operation op current next = next
  \/ apply_operation op current next = 0
  \/ apply_operation op current next = 1.
Proof.
  unfold apply_operation, TAND, TOR, TIMPLIES, FALSE, UNKNOWN, TRUE.
  destruct (String.eqb op "AND"); [lia |].
  destruct (String.eqb op "OR"); [lia |].
  destruct (String.eqb op "IMPLIES"); [| now left].
  destruct (current =? -1); [now right; right; right |].
  destruct (current =? 0); [| now right; left].
  destruct (next =? 1); simpl; [now right; right; right | now right; right; left].
Qed.

(** X1: NOT turns AND into OR and OR into AND, and is its own inverse; this
    holds for all integers, not only for trinary values. *)
Theorem trinary_de_morgan (a b : Z) :
  TNOT (TAND a b) = TOR (TNOT a) (TNOT b)
  /\ TNOT (TOR a b) = TAND (TNOT a) (TNOT b)
  /\ TNOT (TNOT a) = a.
Proof. unfold TNOT, TAND, TOR. lia. Qed.

(** X2: the four operators map trinary values to trinary values. *)
Theorem trinary_operators_closed (a b : Z) :
  Spec.trinary a -> Spec.trinary b ->
  Spec.trinary (TAND a b) /\ Spec.trinary (TOR a b)
  /\ Spec.trinary (TNOT a) /\ Spec.trinary (TIMPLIES a b).
Proof.
  unfold Spec.trinary.
  intros [-> | [-> | ->]] [-> | [-> | ->]];
    unfold TAND, TOR, TNOT, TIMPLIES, FALSE, UNKNOWN, TRUE; simpl; lia.
Qed.

Lemma trinary_operators_closed_witness :
  Spec.trinary (TAND 1 0) /\ Spec.trinary (TOR 1 0)
  /\ Spec.trinary (TNOT 1) /\ Spec.trinary (TIMPLIES 1 0).
Proof.
  apply (trinary_operators_closed 1 0); unfold Spec.trinary; lia.
Defined.

(** X3: on trinary values an implication is true exactly when its premise is
    false or its conclusion true, and false exactly when its premise is true
    and its conclusion false; an unknown premise never gives false. *)
Theorem TIMPLIES_truth_conditions (a b : Z) :
  Spec.trinary a -> Spec.trinary b ->
  (TIMPLIES a b = 1 <-> a = -1 \/ b = 1)
  /\ (TIMPLIES a b = -1 <-> a = 1 /\ b = -1)
  /\ (a = 0 -> TIMPLIES a b <> -1).
Proof.
  unfold Spec.trinary.
  intros [-> | [-> | ->]] [-> | [-> | ->]];
    unfold TAND, TOR, TNOT, TIMPLIES, FALSE, UNKNOWN, TRUE; simpl; lia.
Qed.

Lemma TIMPLIES_truth_conditions_witness :
  (TIMPLIES 0 (-1) = 1 <-> 0 = -1 \/ -1 = 1)
  /\ (TIMPLIES 0 (-1) = -1 <-> 0 = 1 /\ -1 = -1)
  /\ (0 = 0 -> TIMPLIES 0 (-1) <> -1).
Proof.
  apply (TIMPLIES_truth_conditions 0 (-1)); unfold Spec.trinary; lia.
Defined.

(** X4: negation preserves uncertainty: a value and its negation have the
    same uncertainty measure, for every integer, and the measure is 1 for 0
    and 0 for everything else. *)
Theorem TNOT_preserves_uncertainty (a : Z) :
  uncertainty_measure (TNOT a) = uncertainty_measure a
  /\ (uncertainty_measure a = 1%Q <-> a = 0)
  /\ (uncertainty_measure a = 0%Q <-> a <> 0).
Proof.
  unfold uncertainty_measure, TNOT, UNKNOWN.
  destruct (a =? 0) eqn:Ea.
  - apply Z.eqb_eq in Ea; subst; simpl.
    repeat split; try reflexivity; try discriminate; congruence.
  - apply Z.eqb_neq in Ea.
    replace (- a =? 0) with false by (symmetry; apply Z.eqb_neq; lia).
    repeat split; try reflexivity; try discriminate; congruence.
Qed.

(** ** Reasoning chains, further *)

(** The running result of a chain is where it started, or a premise it met,
    or one of the constants 0 and 1 that IMPLIES returns. *)
Lemma fold_chain_step_range (steps : list (string * Z)) :
  forall (current : Z) (acc : Q),
    let value := fst (fold_left Loop.step steps (current, acc)) in
    value = current \/ In value (map snd steps) \/ value = 0 \/ value = 1.
Proof.
  induction steps as [| [op next] steps IH]; intros current acc; cbv zeta.
  - now left.
  - cbn [fold_left map snd In].
    change (Loop.step (current, acc) (op, next))
      with (apply_operation op current next,
            (acc + uncertainty_measure (apply_operation op current next))%Q).
    set (r := apply_operation op current next).
    specialize (IH r (acc + uncertainty_measure r)%Q). cbv zeta in IH.
    destruct IH as [H | [H | H]].
    + rewrite H. unfold r.
      destruct (apply_operation_range op current next) as [E | [E | [E | E]]];
        rewrite E; intuition.
    + tauto.
    + tauto.
Qed.

(** Each step adds 0 or 1: the total is a whole number, at most the number
    of steps. *)
Lemma fold_chain_step_count (steps : list (string * Z)) :
  forall (current : Z) (acc : Q),
    exists n : nat,
      (n <= List.length steps)%nat
      /\ snd (fold_left Loop.step steps (current, acc))
         == (acc + inject_Z (Z.of_nat n))%Q.
Proof.
  induction steps as [| [op next] steps IH]; intros current acc.
  - exists 0%nat. split; [simpl; lia | simpl; ring].
  - cbn [fold_left List.length].
    change (Loop.step (current, acc) (op, next))
      with (apply_operation op current next,
            (acc + uncertainty_measure (apply_operation op current next))%Q).
    set (r := apply_operation op current next).
    destruct (IH r (acc + uncertainty_measure r)%Q) as (n & Hn & Hu).
    assert (Hr : uncertainty_measure r = 1%Q \/ uncertainty_measure r = 0%Q)
      by (unfold uncertainty_measure, UNKNOWN; destruct (r =? 0); auto).
    destruct Hr as [E | E]; rewrite E in *.
    + exists (S n). split; [lia |]. rewrite Hu.
      rewrite Nat2Z.inj_succ, <- Z.add_1_r, inject_Z_plus. ring.
    + exists n. split; [lia |]. rewrite Hu. ring.
Qed.

Lemma in_map_snd_combine {A B : Type} (l : list A) (l' : list B) (y : B) :
  In y (map snd (combine l l')) -> In y l'.
Proof.
  intros H. apply in_map_iff in H as ([x y'] & Heq & Hin).
  simpl in Heq; subst. now apply in_combine_r in Hin.
Qed.

(** X5: the value a chain returns is one of its premises or one of the
    constants 0 and 1 (which IMPLIES can return); so a chain over trinary
    premises returns a trinary value, whatever the operation tags are. *)
Theorem reason_chain_value_range (self : LucidiaTrinaryCortex) (first : Z)
    (rest : list Z) (operations : list string) :
  exists self' value uncertainty,
    reason_chain self (first :: rest) operations
    = Returned (self', (value, uncertainty))
    /\ (In value (first :: rest) \/ value = 0 \/ value = 1)
    /\ (Forall Spec.trinary (first :: rest) -> Spec.trinary value).
Proof.
  rewrite reason_chain_cons. unfold Loop.run.
  pose proof (fold_chain_step_range (combine operations rest) first 0%Q) as Hr.
  cbv zeta in Hr.
  destruct (fold_left Loop.step (combine operations rest) (first, 0%Q))
    as [value uncertainty].
  simpl in Hr.
  assert (Hrange : In value (first :: rest) \/ value = 0 \/ value = 1).
  { destruct Hr as [-> | [Hin | Hc]].
    - left; now left.
    - left; right. now apply in_map_snd_combine in Hin.
    - now right. }
  do 3 eexists. split; [reflexivity | split; [exact Hrange |]].
  intros Hall. destruct Hrange as [Hin | Hc].
  - rewrite Forall_forall in Hall. now apply Hall.
  - unfold Spec.trinary. lia.
Qed.

(** X6: the uncertainty a chain returns is a whole number between 0 and the
    number of steps taken, which is at most the number of operations and at
    most the number of premises after the first. *)
Theorem reason_chain_uncertainty_bound (self : LucidiaTrinaryCortex)
    (first : Z) (rest : list Z) (operations : list string) :
  exists self' value uncertainty (n : nat),
    reason_chain self (first :: rest) operations
    = Returned (self', (value, uncertainty))
    /\ uncertainty == inject_Z (Z.of_nat n)
    /\ (n <= List.length operations)%nat
    /\ (n <= List.length rest)%nat.
Proof.
  rewrite reason_chain_cons. unfold Loop.run.
  destruct (fold_chain_step_count (combine operations rest) first 0%Q)
    as (n & Hn & Hu).
  rewrite length_combine in Hn.
  destruct (fold_left Loop.step (combine operations rest) (first, 0%Q))
    as [value uncertainty].
  simpl in Hu.
  exists (mkCortex
            (reasoning_history self
             ++ [mkStep (first :: rest) operations value uncertainty])
            (contradiction_count self)), value, uncertainty, n.
  split; [reflexivity | split; [| lia]].
  rewrite Hu. ring.
Qed.

Lemma map_snd_combine_short {A B : Type} (l : list A) (l' : list B) :
  (List.length l' <= List.length l)%nat -> map snd (combine l l') = l'.
Proof.
  revert l'; induction l as [| x l IH]; intros [| y l'] H; simpl in *;
    try reflexivity; try lia.
  rewrite IH by lia. reflexivity.
Qed.

(** A chain whose tags all stand for one binary operator folds that
    operator over the premises. *)
Lemma fold_chain_step_one_operator (op : string) (f : Z -> Z -> Z)
    (steps : list (string * Z)) :
  (forall current next, apply_operation op current next = f current next) ->
  (forall s, In s steps -> fst s = op) ->
  forall (current : Z) (acc : Q),
    fst (fold_left Loop.step steps (current, acc))
    = fold_left f (map snd steps) current.
Proof.
  intros Hop. induction steps as [| [op' next] steps IH]; intros Hall current acc.
  - reflexivity.
  - cbn [fold_left map snd].
    change (Loop.step (current, acc) (op', next))
      with (apply_operation op' current next,
            (acc + uncertainty_measure (apply_operation op' current next))%Q).
    assert (op' = op) as -> by (apply (Hall (op', next)); now left).
    rewrite IH by (intros s Hs; apply Hall; now right).
    now rewrite Hop.
Qed.

Lemma combine_tags (tag : string) (operations : list string) (rest : list Z) :
  (forall op, In op operations -> op = tag) ->
  forall s, In s (combine operations rest) -> fst s = tag.
Proof.
  intros Hall [op next] Hin. apply in_combine_l in Hin. now apply Hall.
Qed.

(** X7: with at least as many operations as premises after the first, a
    chain of "AND" tags alone returns the minimum of all the premises, and a
    chain of "OR" tags alone their maximum. *)
Theorem reason_chain_all_and_all_or (self : LucidiaTrinaryCortex) (first : Z)
    (rest : list Z) (operations : list string) :
  (List.length rest <= List.length operations)%nat ->
  ((forall op, In op operations -> op = "AND"%string) ->
   exists self' uncertainty,
     reason_chain self (first :: rest) operations
     = Returned (self', (fold_left Z.min rest first, uncertainty)))
  /\ ((forall op, In op operations -> op = "OR"%string) ->
      exists self' uncertainty,
        reason_chain self (first :: rest) operations
        = Returned (self', (fold_left Z.max rest first, uncertainty))).
Proof.
  intros Hlen. rewrite reason_chain_cons. unfold Loop.run.
  split; intros Hall.
  - rewrite (surjective_pairing (fold_left _ _ _)).
    rewrite (fold_chain_step_one_operator "AND" Z.min);
      [| reflexivity | now apply combine_tags].
    rewrite (map_snd_combine_short _ _ Hlen). now do 2 eexists.
  - rewrite (surjective_pairing (fold_left _ _ _)).
    rewrite (fold_chain_step_one_operator "OR" Z.max);
      [| reflexivity | now apply combine_tags].
    rewrite (map_snd_combine_short _ _ Hlen). now do 2 eexists.
Qed.

Lemma reason_chain_all_and_all_or_witness :
  ((forall op, In op ["AND"; "AND"]%string -> op = "AND"%string) ->
   exists self' uncertainty,
     reason_chain new_cortex [1; 0; -1] ["AND"; "AND"]%string
     = Returned (self', (fold_left Z.min [0; -1] 1, uncertainty)))
  /\ ((forall op, In op ["AND"; "AND"]%string -> op = "OR"%string) ->
      exists self' uncertainty,
        reason_chain new_cortex [1; 0; -1] ["AND"; "AND"]%string
        = Returned (self', (fold_left Z.max [0; -1] 1, uncertainty))).
Proof.
  apply (reason_chain_all_and_all_or new_cortex 1 [0; -1] ["AND"; "AND"]%string).
  simpl. lia.
Defined.

Lemma combine_app_split {A B : Type} (l1 l2 : list A) :
  forall l' : list B,
    (List.length l1 <= List.length l')%nat ->
    combine (l1 ++ l2) l'
    = combine l1 l' ++ combine l2 (skipn (List.length l1) l').
Proof.
  induction l1 as [| x l1 IH]; intros [| y l'] H; simpl in *;
    try reflexivity; try lia.
  rewrite IH by lia. reflexivity.
Qed.

(** X8: chains compose.  When the first group of operations does not run
    out of premises, running both groups in one call gives the value of
    running the second group from the result of the first over the premises
    that are left, and the uncertainty is the sum of the two. *)
Theorem reason_chain_app (self : LucidiaTrinaryCortex) (first : Z)
    (rest : list Z) (operations1 operations2 : list string) :
  (List.length operations1 <= List.length rest)%nat ->
  exists self1 self2 self3 value1 u1 value u2 u,
    reason_chain self (first :: rest) operations1
    = Returned (self1, (value1, u1))
    /\ reason_chain self1
         (value1 :: skipn (List.length operations1) rest) operations2
       = Returned (self2, (value, u2))
    /\ reason_chain self (first :: rest) (operations1 ++ operations2)
       = Returned (self3, (value, u))
    /\ u == (u1 + u2)%Q.
Proof.
  intros Hlen.
  destruct (fold_left Loop.step (combine operations1 rest) (first, 0%Q))
    as [value1 u1] eqn:H1.
  destruct (fold_chain_step_acc
              (combine operations2 (skipn (List.length operations1) rest))
              value1 u1) as [Hv Hu].
  destruct (fold_left Loop.step
              (combine operations2 (skipn (List.length operations1) rest))
              (value1, u1)) as [value u] eqn:H2.
  destruct (fold_left Loop.step
              (combine operations2 (skipn (List.length operations1) rest))
              (value1, 0%Q)) as [value' u2] eqn:H3.
  simpl in Hv, Hu. subst value'.
  eexists _, _, _, value1, u1, value, u2, u.
  split; [| split; [| split; [| exact Hu]]].
  - rewrite reason_chain_cons. unfold Loop.run. rewrite H1. reflexivity.
  - rewrite reason_chain_cons. unfold Loop.run. rewrite H3. reflexivity.
  - rewrite reason_chain_cons. unfold Loop.run.
    rewrite (combine_app_split _ _ _ Hlen), fold_left_app, H1, H2. reflexivity.
Qed.

Lemma reason_chain_app_witness :
  exists self1 self2 self3 value1 u1 value u2 u,
    reason_chain new_cortex [1; 0; -1] ["AND"]%string
    = Returned (self1, (value1, u1))
    /\ reason_chain self1
         (value1 :: skipn (List.length ["AND"%string]) [0; -1]) ["OR"]%string
       = Returned (self2, (value, u2))
    /\ reason_chain new_cortex [1; 0; -1] (["AND"%string] ++ ["OR"%string])
       = Returned (self3, (value, u))
    /\ u == (u1 + u2)%Q.
Proof.
  apply (reason_chain_app new_cortex 1 [0; -1] ["AND"]%string ["OR"]%string).
  simpl. lia.
Defined.

(** ** The evaluator's contradiction test *)

(** X9: the evaluator's [detect_contradiction] answers True exactly when the
    two statements are opposite and not 0; it adds one to the contradiction
    counter exactly then, never touches the reasoning log, and gives the
    same answer with its arguments swapped. *)
Theorem cortex_detect_contradiction_opposite (self : LucidiaTrinaryCortex)
    (statement_a statement_b : Z) :
  (snd (TrinaryOperators.detect_contradiction self statement_a statement_b) = true
   <-> statement_a = - statement_b /\ statement_a <> 0)
  /\ contradiction_count
       (fst (TrinaryOperators.detect_contradiction self statement_a statement_b))
     = contradiction_count self
       + (if snd (TrinaryOperators.detect_contradiction self statement_a statement_b)
          then 1 else 0)
  /\ reasoning_history
       (fst (TrinaryOperators.detect_contradiction self statement_a statement_b))
     = reasoning_history self
  /\ snd (TrinaryOperators.detect_contradiction self statement_b statement_a)
     = snd (TrinaryOperators.detect_contradiction self statement_a statement_b).
Proof.
  assert (Htest : forall a b,
             (a =? - b) && negb (existsb (Z.eqb 0) [a; b]) = true
             <-> a = - b /\ a <> 0).
  { intros a b. cbn [existsb].
    rewrite andb_true_iff, negb_true_iff, !orb_false_iff, Z.eqb_eq, !Z.eqb_neq.
    lia. }
  assert (Hswap : forall a b,
             (b =? - a) && negb (existsb (Z.eqb 0) [b; a])
             = (a =? - b) && negb (existsb (Z.eqb 0) [a; b])).
  { intros a b. apply eq_true_iff_eq. rewrite !Htest. lia. }
  unfold TrinaryOperators.detect_contradiction.
  rewrite (Hswap statement_a statement_b).
  destruct ((statement_a =? - statement_b)
            && negb (existsb (Z.eqb 0) [statement_a; statement_b])) eqn:E;
    cbn [fst snd contradiction_count reasoning_history].
  - apply Htest in E. destruct E as [E1 E2].
    repeat split; intros; try reflexivity; assumption.
  - repeat split; intros; try reflexivity; try discriminate.
    + apply Htest in H. congruence.
    + lia.
Qed.

(** ** The phi contribution, bounded *)

Lemma inject_Z_succ (n : nat) :
  inject_Z (Z.of_nat (S n)) == (inject_Z (Z.of_nat n) + 1)%Q.
Proof. rewrite Nat2Z.inj_succ, <- Z.add_1_r, inject_Z_plus. reflexivity. Qed.

Lemma inject_Z_of_nat_nonneg (n : nat) : (0 <= inject_Z (Z.of_nat n))%Q.
Proof. change 0%Q with (inject_Z 0). rewrite <- Zle_Qle. lia. Qed.

Lemma Qsum_bounds (xs : list Q) (m : Q) :
  Forall (fun x => 0 <= x <= m)%Q xs ->
  (0 <= Spec.Qsum xs <= inject_Z (Z.of_nat (List.length xs)) * m)%Q.
Proof.
  induction 1 as [| x xs [Hx0 Hxm] _ [IH0 IHm]]; cbn [Spec.Qsum fold_right List.length].
  - change (inject_Z (Z.of_nat 0)) with 0%Q. lra.
  - fold (Spec.Qsum xs). rewrite inject_Z_succ. split; [lra |].
    setoid_replace ((inject_Z (Z.of_nat (List.length xs)) + 1) * m)%Q
      with (inject_Z (Z.of_nat (List.length xs)) * m + m)%Q by ring.
    lra.
Qed.

(** X10: when every logged step uncertainty lies between 0 and [m], the phi
    contribution lies between 0 and [m] too, and strictly below [m] when [m]
    is positive: dividing by one more than the number of steps damps it. *)
Theorem phi_contribution_bounds (self : LucidiaTrinaryCortex) (m : Q) :
  (0 <= m)%Q ->
  Forall (fun step => 0 <= step_uncertainty step <= m)%Q (reasoning_history self) ->
  (0 <= consciousness_phi_contribution self <= m)%Q
  /\ ((0 < m)%Q -> (consciousness_phi_contribution self < m)%Q).
Proof.
  intros Hm Hall. unfold consciousness_phi_contribution.
  destruct (reasoning_history self) as [| step history] eqn:Hh.
  - split; [lra | tauto].
  - rewrite <- Hh in *.
    assert (Hsum := Qsum_bounds (map step_uncertainty (reasoning_history self)) m).
    rewrite Forall_map, length_map in Hsum. specialize (Hsum Hall).
    rewrite total_uncertainty_sum.
    set (total := Spec.Qsum (map step_uncertainty (reasoning_history self))) in *.
    set (n := inject_Z (Z.of_nat (List.length (reasoning_history self)))) in *.
    assert (Hn : (0 <= n)%Q) by apply inject_Z_of_nat_nonneg.
    rewrite inject_Z_plus. fold n. change (inject_Z 1) with 1%Q.
    assert (Hpos : (0 < n + 1)%Q) by lra.
    destruct Hsum as [Hs0 Hsm].
    assert (Hnm : (n * m + m == m * (n + 1))%Q) by ring.
    split; [split |].
    + apply Qle_shift_div_l; [exact Hpos | lra].
    + apply Qle_shift_div_r; [exact Hpos | lra].
    + intros Hmpos. apply Qlt_shift_div_r; [exact Hpos | lra].
Qed.

Lemma phi_contribution_bounds_witness :
  (0 <= consciousness_phi_contribution Scenario.cortex_and_or <= 2)%Q
  /\ ((0 < 2)%Q ->
      (consciousness_phi_contribution Scenario.cortex_and_or < 2)%Q).
Proof.
  apply (phi_contribution_bounds Scenario.cortex_and_or 2%Q).
  - lra.
  - constructor; [split; vm_compute; discriminate | constructor].
Defined.

(** ** The contradiction detector, classified *)

(** The severity of a detection in closed form, for all integers. *)
Lemma detect_severity (name_a : string) (a : Z) (name_b : string) (b : Z) :
  option_map severity
    (ContradictionResolver.detect_contradiction name_a a name_b b)
  = if a =? b then None
    else Some (if a =? - b then HARD else MEDIUM).
Proof.
  unfold ContradictionResolver.detect_contradiction.
  destruct (a =? b) eqn:Eab; [reflexivity |].
  apply Z.eqb_neq in Eab. cbn [option_map severity].
  destruct (a =? 0) eqn:Ea, (b =? 0) eqn:Eb; cbn [orb andb];
    rewrite ?Z.eqb_eq, ?Z.eqb_neq in *.
  - lia.
  - replace (a =? - b) with false by (symmetry; apply Z.eqb_neq; lia).
    reflexivity.
  - replace (a =? - b) with false by (symmetry; apply Z.eqb_neq; lia).
    reflexivity.
  - reflexivity.
Qed.

(** X11: for all integer values the detector returns nothing when the two
    values are equal, a HARD contradiction when they are opposite, and a
    MEDIUM one in every other case; it never returns CRITICAL.  The record
    copies the names and values it was given, with timestamp 0, an empty
    context and no resolution attempt. *)
Theorem detect_contradiction_classifies (name_a : string) (a : Z)
    (name_b : string) (b : Z) :
  option_map severity
    (ContradictionResolver.detect_contradiction name_a a name_b b)
  = (if a =? b then None else Some (if a =? - b then HARD else MEDIUM))
  /\ option_map severity
       (ContradictionResolver.detect_contradiction name_a a name_b b)
     <> Some CRITICAL
  /\ (forall c,
        ContradictionResolver.detect_contradiction name_a a name_b b = Some c ->
        belief_a c = name_a /\ belief_b c = name_b
        /\ value_a c = a /\ value_b c = b
        /\ timestamp c = 0%Q /\ context c = EmptyString
        /\ resolution_attempts c = 0).
Proof.
  split; [apply detect_severity | split].
  - rewrite detect_severity.
    destruct (a =? b); [discriminate |]. destruct (a =? - b); discriminate.
  - unfold ContradictionResolver.detect_contradiction.
    destruct (a =? b); [discriminate |].
    intros c H; inversion H; subst; simpl. tauto.
Qed.

(** X12: detection is symmetric: swapping the two beliefs gives a
    contradiction exactly when the original order does, of the same
    severity. *)
Theorem detect_contradiction_symmetric (name_a : string) (a : Z)
    (name_b : string) (b : Z) :
  option_map severity
    (ContradictionResolver.detect_contradiction name_b b name_a a)
  = option_map severity
      (ContradictionResolver.detect_contradiction name_a a name_b b).
Proof.
  rewrite !detect_severity.
  destruct (a =? b) eqn:Eab, (b =? a) eqn:Eba;
    rewrite ?Z.eqb_eq, ?Z.eqb_neq in *; try reflexivity; try lia.
  destruct (a =? - b) eqn:E1, (b =? - a) eqn:E2;
    rewrite ?Z.eqb_eq, ?Z.eqb_neq in *; try reflexivity; lia.
Qed.

(** X13: what the strategies do with a detected contradiction.  Opposite
    values resolve to 0 (unknown) at cost 0.5; any other pair resolves, at
    cost 0.3, to the first value when it is not 0 and to the second
    otherwise, and that value is never 0. *)
Theorem strategy_on_detected (name_a : string) (a : Z) (name_b : string)
    (b : Z) (c : Contradiction) :
  ContradictionResolver.detect_contradiction name_a a name_b b = Some c ->
  (a = - b -> resolution_strategies (severity c) c = (0, B64.half))
  /\ (a <> - b ->
      resolution_strategies (severity c) c
      = ((if a =? 0 then b else a), B64.three_tenths)
      /\ fst (resolution_strategies (severity c) c) <> 0).
Proof.
  intros H.
  pose proof (detect_severity name_a a name_b b) as Hsev.
  rewrite H in Hsev. cbn [option_map] in Hsev.
  apply detect_contradiction_some in H as (Hne & _ & _ & Ha & Hb & _).
  destruct (a =? b) eqn:Eab; [discriminate |].
  injection Hsev as Hsev. split.
  - intros Hopp. apply Z.eqb_eq in Hopp. rewrite Hopp in Hsev.
    now rewrite Hsev.
  - intros Hnot. apply Z.eqb_neq in Hnot. rewrite Hnot in Hsev.
    rewrite Hsev. cbn [resolution_strategies]. unfold _resolve_medium.
    rewrite Ha, Hb.
    destruct (a =? 0) eqn:Ea; cbn [negb fst];
      rewrite ?Z.eqb_eq, ?Z.eqb_neq in *; split; try reflexivity; lia.
Qed.

Lemma strategy_on_detected_witness :
  exists c,
    ContradictionResolver.detect_contradiction "A" 0 "B" (-1) = Some c
    /\ (0 = - -1 -> resolution_strategies (severity c) c = (0, B64.half))
    /\ (0 <> - -1 ->
        resolution_strategies (severity c) c
        = ((if 0 =? 0 then -1 else 0), B64.three_tenths)
        /\ fst (resolution_strategies (severity c) c) <> 0).
Proof.
  eexists. split; [reflexivity |].
  apply (strategy_on_detected "A" 0 "B" (-1)). reflexivity.
Defined.

(** ** Entropy cost *)

Lemma entropy_cost_sum (contradictions : list Contradiction) :
  entropy_cost contradictions
  = B64.sum (map (fun c => Spec.severity_cost (severity c)) contradictions).
Proof. unfold entropy_cost, B64.sum. apply fold_strategy_costs. Qed.

(** X14: [entropy_cost] is 0.0 on the empty list and depends on the
    contradictions only through their severities, in order: lists with the
    same sequence of severities cost the same, whatever names, values and
    attempt counters they hold; one more contradiction at the end adds the
    cost of its severity to the cost of the list before it. *)
Theorem entropy_cost_by_severity (xs : list Contradiction) :
  entropy_cost [] = 0%float
  /\ (forall ys, map severity xs = map severity ys ->
                 entropy_cost xs = entropy_cost ys)
  /\ (forall c, entropy_cost (xs ++ [c])
                = B64.add (entropy_cost xs) (Spec.severity_cost (severity c))).
Proof.
  split; [reflexivity | split].
  - intros ys H. rewrite !entropy_cost_sum.
    rewrite <- (map_map severity Spec.severity_cost xs).
    rewrite <- (map_map severity Spec.severity_cost ys).
    now rewrite H.
  - intros c. rewrite !entropy_cost_sum. unfold B64.sum.
    now rewrite map_app, fold_left_app.
Qed.



(** ** Belief updates, further *)

Lemma get_set_same {V : Type} (k : string) (v : V) (d : PyDict.dict V) :
  PyDict.get k (PyDict.set k v d) = Some v.
Proof.
  induction d as [| [k' v'] d IH]; simpl.
  - now rewrite String.eqb_refl.
  - destruct (String.eqb k' k) eqn:E; simpl.
    + now rewrite String.eqb_refl.
    + now rewrite E.
Qed.

Lemma get_set_other {V : Type} (k other : string) (v : V) (d : PyDict.dict V) :
  other <> k -> PyDict.get other (PyDict.set k v d) = PyDict.get other d.
Proof.
  intros Hne. induction d as [| [k' v'] d IH]; simpl.
  - destruct (String.eqb k other) eqn:E; [| reflexivity].
    apply String.eqb_eq in E. congruence.
  - destruct (String.eqb k' k) eqn:E; simpl.
    + apply String.eqb_eq in E; subst k'.
      destruct (String.eqb k other) eqn:E'; [| reflexivity].
      apply String.eqb_eq in E'. congruence.
    + now rewrite IH.
Qed.

Lemma keys_set_present {V : Type} (k : string) (v : V) (d : PyDict.dict V) :
  In k (PyDict.keys d) -> PyDict.keys (PyDict.set k v d) = PyDict.keys d.
Proof.
  induction d as [| [k' v'] d IH]; simpl; intros H; [contradiction |].
  destruct (String.eqb k' k) eqn:E; simpl.
  - apply String.eqb_eq in E. now subst.
  - apply String.eqb_neq in E. destruct H as [H | H]; [congruence |].
    f_equal. now apply IH.
Qed.

Lemma keys_set_absent {V : Type} (k : string) (v : V) (d : PyDict.dict V) :
  ~ In k (PyDict.keys d) ->
  PyDict.keys (PyDict.set k v d) = PyDict.keys d ++ [k].
Proof.
  induction d as [| [k' v'] d IH]; simpl; intros H; [reflexivity |].
  destruct (String.eqb k' k) eqn:E; simpl.
  - apply String.eqb_eq in E. tauto.
  - f_equal. apply IH. tauto.
Qed.

Lemma keys_set_same_keys {V W : Type} (k : string) (v : V) (w : W)
    (d : PyDict.dict V) :
  forall d' : PyDict.dict W,
    PyDict.keys d = PyDict.keys d' ->
    PyDict.keys (PyDict.set k v d) = PyDict.keys (PyDict.set k w d').
Proof.
  induction d as [| [k1 v1] d IH]; intros [| [k2 w2] d'] H; simpl in *;
    try discriminate; [reflexivity |].
  injection H as -> H.
  destruct (String.eqb k2 k); simpl.
  - now rewrite H.
  - f_equal. now apply IH.
Qed.

(** X16: an update can be read back: afterwards the belief network maps the
    name to the new value and the confidence network maps it to the new
    confidence, and every other name reads as before in both. *)
Theorem update_belief_network_lookup (self : LucidiaContradictionCortex)
    (name : string) (value : Z) (confidence : Q) :
  PyDict.get name
    (belief_network (fst (update_belief_network self name value confidence)))
  = Some value
  /\ PyDict.get name
       (confidence_network (fst (update_belief_network self name value confidence)))
     = Some confidence
  /\ (forall other, other <> name ->
        PyDict.get other
          (belief_network (fst (update_belief_network self name value confidence)))
        = PyDict.get other (belief_network self)
        /\ PyDict.get other
             (confidence_network
                (fst (update_belief_network self name value confidence)))
           = PyDict.get other (confidence_network self)).
Proof.
  cbn [update_belief_network fst belief_network confidence_network].
  split; [apply get_set_same | split; [apply get_set_same |]].
  intros other Hne. split; now apply get_set_other.
Qed.

(** X17: an update keeps the names of the belief network in their order: a
    name already there keeps its place, a new name goes last; beliefs are
    never removed, and the network grows by at most one entry. *)
Theorem update_belief_network_keys (self : LucidiaContradictionCortex)
    (name : string) (value : Z) (confidence : Q) :
  (In name (PyDict.keys (belief_network self)) ->
   PyDict.keys
     (belief_network (fst (update_belief_network self name value confidence)))
   = PyDict.keys (belief_network self))
  /\ (~ In name (PyDict.keys (belief_network self)) ->
      PyDict.keys
        (belief_network (fst (update_belief_network self name value confidence)))
      = PyDict.keys (belief_network self) ++ [name])
  /\ (forall other, In other (PyDict.keys (belief_network self)) ->
        In other
          (PyDict.keys
             (belief_network
                (fst (update_belief_network self name value confidence)))))
  /\ (List.length (belief_network self)
      <= List.length
           (belief_network (fst (update_belief_network self name value confidence)))
      <= List.length (belief_network self) + 1)%nat.
Proof.
  cbn [update_belief_network fst belief_network].
  split; [apply keys_set_present | split; [apply keys_set_absent | split]].
  - intros other H. apply set_keys_in. now right.
  - rewrite <- !(length_map fst).
    change (map fst (PyDict.set name value (belief_network self)))
      with (PyDict.keys (PyDict.set name value (belief_network self))).
    change (map fst (belief_network self))
      with (PyDict.keys (belief_network self)).
    destruct (in_dec string_dec name (PyDict.keys (belief_network self))) as [H | H].
    + rewrite (keys_set_present _ _ _ H). lia.
    + rewrite (keys_set_absent _ _ _ H), length_app. simpl. lia.
Qed.

(** The contradictions an update finds are as many as the entries whose
    value differs from the new value. *)
Lemma detect_against_length (name : string) (value : Z)
    (network : PyDict.dict Z) :
  List.length (detect_against name value network)
  = List.length (filter (fun entry => negb (snd entry =? value))
                   (PyDict.items network)).
Proof.
  rewrite detect_against_flat_map. unfold PyDict.items.
  induction network as [| [k v] network IH]; simpl; [reflexivity |].
  rewrite length_app, IH.
  unfold ContradictionResolver.detect_contradiction.
  destruct (v =? value); reflexivity.
Qed.

(** X18: the number an update returns is the number of network entries,
    the updated name's own entry included, whose value differs from the new
    value; it lies between 0 and the size of the network before the call,
    and it is 0 exactly when every belief already has the new value. *)
Theorem update_belief_network_count (self : LucidiaContradictionCortex)
    (name : string) (value : Z) (confidence : Q) :
  snd (update_belief_network self name value confidence)
  = Z.of_nat
      (List.length
         (filter (fun entry => negb (snd entry =? value))
            (PyDict.items (belief_network self))))
  /\ 0 <= snd (update_belief_network self name value confidence)
     <= Z.of_nat (List.length (belief_network self))
  /\ (snd (update_belief_network self name value confidence) = 0
      <-> forall k v, In (k, v) (PyDict.items (belief_network self)) -> v = value).
Proof.
  cbn [update_belief_network snd]. rewrite detect_against_length.
  set (differs := fun entry : string * Z => negb (snd entry =? value)).
  split; [reflexivity | split].
  - pose proof (filter_length_le differs (PyDict.items (belief_network self))).
    unfold PyDict.items in *. lia.
  - split.
    + intros Hz k v Hin.
      destruct (Z.eq_dec v value) as [| Hne]; [assumption | exfalso].
      assert (Hf : In (k, v) (filter differs (PyDict.items (belief_network self)))).
      { apply filter_In. split; [exact Hin |].
        unfold differs; simpl. apply negb_true_iff, Z.eqb_neq, Hne. }
      destruct (filter differs (PyDict.items (belief_network self)));
        [contradiction | simpl in Hz; lia].
    + intros Hall.
      enough (Hnil : filter differs (PyDict.items (belief_network self)) = [])
        by now rewrite Hnil.
      induction (PyDict.items (belief_network self)) as [| [k v] l IH];
        [reflexivity |].
      simpl. unfold differs at 1; simpl.
      rewrite (Hall k v (or_introl eq_refl)), Z.eqb_refl. simpl.
      apply IH. intros k' v' Hin. apply (Hall k' v'). now right.
Qed.

(** ** Resolution, further *)

(** X19: resolving twice in a row: the second call finds nothing to do,
    reports 0 resolved at cost 0 and returns the engine as the first call
    left it. *)
Theorem resolve_twice (self : LucidiaContradictionCortex) :
  fst (resolve_active_contradictions (fst (resolve_active_contradictions self)))
  = fst (resolve_active_contradictions self)
  /\ contradictions_resolved
       (snd (resolve_active_contradictions
               (fst (resolve_active_contradictions self)))) = 0
  /\ res_entropy_cost
       (snd (resolve_active_contradictions
               (fst (resolve_active_contradictions self)))) = 0%float.
Proof.
  rewrite (resolve_active_contradictions_unfold
             (fst (resolve_active_contradictions self))).
  rewrite (resolve_active_contradictions_unfold self).
  cbn [fst snd cortex active_contradictions resolved_contradictions
       belief_network confidence_network contradictions_resolved
       res_entropy_cost sorted_by_severity fold_right map fold_left List.length].
  rewrite app_nil_r. repeat split; reflexivity.
Qed.

Lemma filter_map_attempt (s : ContradictionSeverity) (l : list Contradiction) :
  filter (fun x => severity_eqb (severity x) s) (map attempt l)
  = map attempt (filter (fun x => severity_eqb (severity x) s) l).
Proof.
  induction l as [| c l IH]; [reflexivity |].
  cbn [map filter]. cbn [attempt severity].
  destruct (severity_eqb (severity c) s); cbn [map]; now rewrite IH.
Qed.

(** X20: a resolution appends the contradictions it processes to the
    resolved list in order of severity, largest first, and contradictions of
    the same severity in the order they were in on the active list. *)
Theorem resolve_order (self : LucidiaContradictionCortex) :
  exists added,
    resolved_contradictions (fst (resolve_active_contradictions self))
    = resolved_contradictions self ++ added
    /\ StronglySorted Session.severity_descending (map severity added)
    /\ (forall s,
          filter (fun c => severity_eqb (severity c) s) added
          = map attempt
              (filter (fun c => severity_eqb (severity c) s)
                 (active_contradictions self))).
Proof.
  rewrite resolve_active_contradictions_unfold.
  exists (map attempt (sorted_by_severity (active_contradictions self))).
  split; [reflexivity | split].
  - rewrite map_map. cbn [attempt severity].
    apply sorted_by_severity_sorted.
  - intros s. now rewrite filter_map_attempt, filter_sorted_by_severity.
Qed.

(** X21: the preserved-information figure of a report is the share of
    beliefs whose value is 0: it is 0 on an empty network (the divisor is
    then 1, not 0) and lies between 0 and 1 always. *)
Theorem preserved_information_share (self : LucidiaContradictionCortex) :
  (belief_network self = [] ->
   preserved_information (snd (resolve_active_contradictions self)) == 0)
  /\ (belief_network self <> [] ->
      preserved_information (snd (resolve_active_contradictions self))
      == (inject_Z (Z.of_nat (List.length
            (filter (fun v => v =? 0) (PyDict.values (belief_network self)))))
          / inject_Z (Z.of_nat (List.length (belief_network self))))%Q)
  /\ (0 <= preserved_information (snd (resolve_active_contradictions self)) <= 1)%Q.
Proof.
  rewrite resolve_active_contradictions_unfold. cbn [snd preserved_information].
  set (zeros := List.length
                  (filter (fun v => v =? 0) (PyDict.values (belief_network self)))).
  assert (Hle : (zeros <= List.length (belief_network self))%nat).
  { unfold zeros, PyDict.values.
    rewrite <- (length_map snd (belief_network self)). apply filter_length_le. }
  assert (Hmax : (0 < inject_Z (Z.max (Z.of_nat (List.length (belief_network self))) 1))%Q).
  { change 0%Q with (inject_Z 0). rewrite <- Zlt_Qlt. lia. }
  split; [| split; [| split]].
  - intros Hnil. rewrite Hnil in *. simpl in Hle.
    replace zeros with 0%nat by lia. reflexivity.
  - intros Hne.
    replace (Z.max (Z.of_nat (List.length (belief_network self))) 1)
      with (Z.of_nat (List.length (belief_network self))); [reflexivity |].
    destruct (belief_network self); [congruence | simpl List.length; lia].
  - apply Qle_shift_div_l; [exact Hmax |].
    rewrite Qmult_0_l. apply inject_Z_of_nat_nonneg.
  - apply Qle_shift_div_r; [exact Hmax |].
    rewrite Qmult_1_l, <- Zle_Qle. lia.
Qed.

(** ** Scores across a resolution *)

Lemma resolved_length_after (self : LucidiaContradictionCortex) :
  List.length (resolved_contradictions (fst (resolve_active_contradictions self)))
  = (List.length (resolved_contradictions self)
     + List.length (active_contradictions self))%nat.
Proof.
  rewrite resolve_active_contradictions_unfold. cbn [fst resolved_contradictions].
  rewrite length_app, length_map.
  now rewrite (Permutation_length (sorted_by_severity_Permutation _)).
Qed.

Lemma inject_Z_of_nat_add (n m : nat) :
  inject_Z (Z.of_nat (n + m)) == (inject_Z (Z.of_nat n) + inject_Z (Z.of_nat m))%Q.
Proof. now rewrite Nat2Z.inj_add, inject_Z_plus. Qed.

(** X22: resolving never lowers the coherence score: the penalty of the
    active contradictions goes and the bonus of the resolved ones grows. *)
Theorem resolve_raises_coherence (self : LucidiaContradictionCortex) :
  (system_coherence_score self
   <= system_coherence_score (fst (resolve_active_contradictions self)))%Q.
Proof.
  unfold system_coherence_score.
  rewrite resolved_length_after.
  rewrite resolve_active_contradictions_unfold.
  cbn [fst belief_network active_contradictions List.length].
  destruct (belief_network self) as [| entry network]; [apply Qle_refl |].
  apply Q.max_le_compat_l, Q.min_le_compat_l.
  set (base := match map Z.abs (PyDict.values (entry :: network)) with
               | [] => 0%Q
               | _ :: _ => np_mean (map Z.abs (PyDict.values (entry :: network)))
               end).
  rewrite inject_Z_of_nat_add.
  pose proof (inject_Z_of_nat_nonneg (List.length (active_contradictions self))).
  change (inject_Z (Z.of_nat 0)) with 0%Q. lra.
Qed.

(** X23: the enhancement factor is never negative; a resolution never
    raises it, and lowers it when at least one contradiction was active (an
    active contradiction weighs 0.2, a resolved one 0.1). *)
Theorem enhancement_factor_across_resolve (self : LucidiaContradictionCortex) :
  (0 <= consciousness_enhancement_factor self)%Q
  /\ (consciousness_enhancement_factor (fst (resolve_active_contradictions self))
      <= consciousness_enhancement_factor self)%Q
  /\ (active_contradictions self <> [] ->
      (consciousness_enhancement_factor (fst (resolve_active_contradictions self))
       < consciousness_enhancement_factor self)%Q).
Proof.
  unfold consciousness_enhancement_factor.
  rewrite resolved_length_after.
  rewrite resolve_active_contradictions_unfold.
  cbn [fst belief_network active_contradictions List.length].
  pose proof (inject_Z_of_nat_nonneg (List.length (active_contradictions self))).
  pose proof (inject_Z_of_nat_nonneg (List.length (resolved_contradictions self))).
  pose proof (inject_Z_of_nat_nonneg
                (List.length (filter (fun v => v =? 0)
                                (PyDict.values (belief_network self))))).
  rewrite inject_Z_of_nat_add. change (inject_Z (Z.of_nat 0)) with 0%Q.
  split; [lra | split; [lra |]].
  intros Hne.
  assert (Hpos : (0 < inject_Z (Z.of_nat (List.length (active_contradictions self))))%Q).
  { change 0%Q with (inject_Z 0). rewrite <- Zlt_Qlt.
    destruct (active_contradictions self); [congruence | simpl List.length; lia]. }
  lra.
Qed.

(** ** Invariants of a session *)

Lemma run_invariant (P : LucidiaContradictionCortex -> Prop) :
  (forall self c, P self -> P (Session.step self c)) ->
  forall calls self, P self -> P (Session.run calls self).
Proof.
  intros Hstep. unfold Session.run.
  induction calls as [| c calls IH]; intros self H; simpl; [exact H |].
  apply IH, Hstep, H.
Qed.

Lemma step_networks_consistent (self : LucidiaContradictionCortex)
    (c : Session.call) :
  Session.networks_consistent self ->
  Session.networks_consistent (Session.step self c).
Proof.
  unfold Session.networks_consistent. intros [Hnodup Hkeys].
  destruct c as [name value confidence | | premises operations | a b];
    cbn [Session.step].
  - cbn [update_belief_network fst belief_network confidence_network].
    split; [now apply set_well_formed | now apply keys_set_same_keys].
  - rewrite resolve_active_contradictions_unfold. now split.
  - destruct (reason_chain (cortex self) premises operations) as [[c' r] | e];
      now split.
  - now split.
Qed.

Lemma detected_by_update (name : string) (value : Z) (network : PyDict.dict Z)
    (c : Contradiction) :
  In c (detect_against name value network) ->
  Session.detected c /\ resolution_attempts c = 0.
Proof.
  intros Hin. apply in_detect_against in Hin as (k & v & _ & Hc).
  pose proof (detect_severity k v name value) as Hsev.
  rewrite Hc in Hsev. cbn [option_map] in Hsev.
  apply detect_contradiction_some in Hc as (Hne & _ & _ & Ha & Hb & Hatt).
  unfold Session.detected. rewrite Ha, Hb.
  apply Z.eqb_neq in Hne as Hneb. rewrite Hneb in Hsev.
  injection Hsev as Hsev. tauto.
Qed.

Lemma step_contradictions_consistent (self : LucidiaContradictionCortex)
    (c : Session.call) :
  Session.contradictions_consistent self ->
  Session.contradictions_consistent (Session.step self c).
Proof.
  unfold Session.contradictions_consistent. intros [Hactive Hresolved].
  destruct c as [name value confidence | | premises operations | a b];
    cbn [Session.step].
  - cbn [update_belief_network fst active_contradictions resolved_contradictions].
    split; [| exact Hresolved].
    apply Forall_app. split; [exact Hactive |].
    apply Forall_forall. intros x Hx. now apply detected_by_update in Hx.
  - rewrite resolve_active_contradictions_unfold.
    cbn [fst active_contradictions resolved_contradictions].
    split; [constructor |].
    apply Forall_app. split; [exact Hresolved |].
    apply Forall_map, Forall_forall. intros x Hx.
    apply (Permutation_in _ (sorted_by_severity_Permutation _)) in Hx.
    rewrite Forall_forall in Hactive. destruct (Hactive x Hx) as [Hd Hatt].
    unfold Session.detected in *. cbn [attempt value_a value_b severity
                                       resolution_attempts].
    split; [exact Hd | lia].
  - destruct (reason_chain (cortex self) premises operations) as [[c' r] | e];
      now split.
  - now split.
Qed.

(** X24: whatever calls a session makes on a new engine, the belief network
    and the confidence network hold the same names in the same order, each
    name once. *)
Theorem session_networks_consistent (calls : list Session.call)
    (trinary_cortex : LucidiaTrinaryCortex) :
  Session.networks_consistent (Session.run calls (new_engine trinary_cortex)).
Proof.
  apply run_invariant; [apply step_networks_consistent |].
  split; [constructor | reflexivity].
Qed.

(** X25: whatever calls a session makes on a new engine, every contradiction
    it holds relates two different values and is HARD when they are opposite
    and MEDIUM otherwise (never SOFT, never CRITICAL); the active ones have
    not been processed and the resolved ones have been processed exactly
    once. *)
Theorem session_contradictions_consistent (calls : list Session.call)
    (trinary_cortex : LucidiaTrinaryCortex) :
  Session.contradictions_consistent
    (Session.run calls (new_engine trinary_cortex)).
Proof.
  apply run_invariant; [apply step_contradictions_consistent |].
  split; constructor.
Qed.

(** ** Substrate routing and cost *)

(** X27: routing looks at the SOFT count first: it answers "chemical"
    exactly when more than 3 contradictions are SOFT, otherwise "quantum"
    exactly when some contradiction is HARD, otherwise "electronic"; a
    severity missing from the distribution counts as 0, and the
    contradiction count passed in plays no part. *)
Theorem contradiction_substrate_routing_cases (contradiction_count : Z)
    (severity_distribution : severity_dict) :
  (contradiction_substrate_routing contradiction_count severity_distribution
   = "chemical"%string
   <-> 3 < severity_get severity_distribution SOFT 0)
  /\ (contradiction_substrate_routing contradiction_count severity_distribution
      = "quantum"%string
      <-> severity_get severity_distribution SOFT 0 <= 3
          /\ 0 < severity_get severity_distribution HARD 0)
  /\ (contradiction_substrate_routing contradiction_count severity_distribution
      = "electronic"%string
      <-> severity_get severity_distribution SOFT 0 <= 3
          /\ severity_get severity_distribution HARD 0 <= 0)
  /\ (forall other_count,
        contradiction_substrate_routing other_count severity_distribution
        = contradiction_substrate_routing contradiction_count severity_distribution)
  /\ contradiction_substrate_routing contradiction_count [] = "electronic"%string.
Proof.
  unfold contradiction_substrate_routing.
  destruct (3 <? severity_get severity_distribution SOFT 0) eqn:Esoft;
    destruct (0 <? severity_get severity_distribution HARD 0) eqn:Ehard;
    rewrite ?Z.ltb_lt, ?Z.ltb_ge in *;
    repeat split; intros; try reflexivity; try discriminate; try lia.
Qed.

(** X28: the estimated cost has the three substrates "chemical", "quantum"
    and "electronic", in this order; for a complexity that is not negative
    chemical is the cheapest and electronic the dearest, and quantum costs
    twice chemical. *)
Theorem substrate_reasoning_cost_order (reasoning_complexity : Q) :
  exists chemical quantum electronic,
    PyDict.keys (substrate_reasoning_cost reasoning_complexity)
    = ["chemical"; "quantum"; "electronic"]%string
    /\ PyDict.get "chemical" (substrate_reasoning_cost reasoning_complexity)
       = Some chemical
    /\ PyDict.get "quantum" (substrate_reasoning_cost reasoning_complexity)
       = Some quantum
    /\ PyDict.get "electronic" (substrate_reasoning_cost reasoning_complexity)
       = Some electronic
    /\ quantum == 2 * chemical
    /\ ((0 <= reasoning_complexity)%Q ->
        (0 <= chemical <= quantum)%Q /\ (quantum <= electronic)%Q).
Proof.
  do 3 eexists.
  split; [reflexivity | split; [reflexivity | split; [reflexivity |
    split; [reflexivity | split]]]].
  - ring.
  - intros H. lra.
Qed.
